(** * langgraph-multi-agent: state reducers, agent nodes and routing

    A shallow embedding of the two scripts of the repository:

    - [multi-agent.ts]: the [AgentState] annotation (a message log and a
      [sender] marker, each with its reducer), the helper [runAgentNode]
      and the two agent nodes built on it, and the chart tool's handler;
    - the single-agent script: the [StateAnnotation] annotation, the
      routing function [shouldContinue], the node [callModel] and the
      graph built with the [StateGraph] builder.

    The language model, the prebuilt tool node, the canvas and the d3
    scales are collaborators of the scripts; they appear as section
    variables, and a call to one of them either returns or throws. *)

From stdpp Require Import base option list strings.
From Stdlib Require Import Arith Lia QArith_base.

Local Close Scope Q_scope.

Local Open Scope string_scope.
Local Open Scope list_scope.

(** ** Outcomes of calls that may throw *)

Inductive Exn : Type :=
  | TypeError (msg : string)
  | CollaboratorError (msg : string).

Inductive Outcome (A : Type) : Type :=
  | Returned (a : A)
  | Threw (e : Exn).

Arguments Returned {A} a.
Arguments Threw {A} e.

Definition obind {A B : Type} (c : Outcome A) (k : A -> Outcome B) : Outcome B :=
  match c with
  | Returned a => k a
  | Threw e => Threw e
  end.

Notation "'await' x <- c ; k" := (obind c (fun x => k))
  (at level 10, x name, c at level 100, k at level 200).

(** ** Messages

    The part of [BaseMessage] and its subclasses that the scripts read
    or write: the message type, the content, the optional [name] and the
    optional list [tool_calls] (absent on human and tool messages). *)

Inductive MessageType : Type := human | ai | tool | system.

Record ToolCall : Type := {
  tc_name : string;
  tc_args : string;
  tc_id : option string
}.

Record BaseMessage : Type := {
  msg_type : MessageType;
  content : string;
  name : option string;
  tool_calls : option (list ToolCall)
}.

(** [new HumanMessage(fields)]: a message of type human that takes its
    content and name from [fields]; the class has no [tool_calls]. *)
Definition HumanMessage (fields : BaseMessage) : BaseMessage :=
  {| msg_type := human;
     content := content fields;
     name := name fields;
     tool_calls := None |}.

(** [new HumanMessage(text)] *)
Definition HumanMessage_of_text (text : string) : BaseMessage :=
  {| msg_type := human; content := text; name := None; tool_calls := None |}.

(** [{ ...result, name: n }] *)
Definition with_name (result : BaseMessage) (n : string) : BaseMessage :=
  {| msg_type := msg_type result;
     content := content result;
     name := Some n;
     tool_calls := tool_calls result |}.

(** [m.tool_calls?.length]: [undefined] when the list is absent. *)
Definition tool_calls_length (m : BaseMessage) : option nat :=
  length <$> tool_calls m.

(** JavaScript truthiness of [number | undefined]. *)
Definition truthy (n : option nat) : bool :=
  match n with
  | Some (S _) => true
  | Some O => false
  | None => false
  end.

(** [!v] for [v] an object or [undefined]: only [undefined] is falsy. *)
Definition absent {A : Type} (v : option A) : bool :=
  match v with
  | Some _ => false
  | None => true
  end.

(** [m.tool_calls.length], read as 0 when there is no list: the number
    of tool invocations the message requests. *)
Definition tool_call_count (m : BaseMessage) : nat :=
  from_option length 0 (tool_calls m).

(** [a ?? b] *)
Definition nullish {A : Type} (a b : option A) : option A :=
  match a with
  | Some v => Some v
  | None => b
  end.

(** * The multi-agent script *)

Module MultiAgent.

(** The state of [AgentState] and a node's partial update of it: a key
    that the returned object does not carry is [None]. A state always
    has its [sender], by the channel's default. *)
Record State : Type := {
  messages : list BaseMessage;
  sender : string
}.

Record Update : Type := {
  u_messages : option (list BaseMessage);
  u_sender : option string
}.

(** [reducer: (x, y) => x.concat(y)] *)
Definition messages_reducer (x y : list BaseMessage) : list BaseMessage :=
  x ++ y.

(** [reducer: (x, y) => y ?? x ?? "user"] *)
Definition sender_reducer (x y : option string) : string :=
  default "user" (nullish y x).

(** [default: () => "user"] *)
Definition sender_default : string := "user".

(** Modelled from the spec: the merge of a step's delta, field by field
    with each field's declared reducer (sections 2 and 4.4); the graph
    library that applies the annotation is not under src/. The
    [messages] reducer runs only when the key is present; for [sender]
    an absent key and [undefined] are the same to the reducer. *)
Definition apply_update (s : State) (u : Update) : State :=
  {| messages :=
       match u_messages u with
       | Some y => messages_reducer (messages s) y
       | None => messages s
       end;
     sender := sender_reducer (Some (sender s)) (u_sender u) |}.

Definition apply_updates (s : State) (us : list Update) : State :=
  foldl apply_update s us.

(** The length of the message list an update returns. *)
Definition update_size (u : Update) : nat :=
  from_option length 0 (u_messages u).

(** The last agent name among the updates, if any carries one. *)
Fixpoint last_sender (us : list Update) : option string :=
  match us with
  | [] => None
  | u :: rest => nullish (last_sender rest) (u_sender u)
  end.

Section Agents.

(** [RunnableConfig] is passed through untouched. *)
Variable RunnableConfig : Type.

(** A [Runnable]: [agent.invoke(state, config)] returns the model's
    response, a message, or throws. *)
Definition Runnable : Type :=
  State -> option RunnableConfig -> Outcome BaseMessage.

(** [runAgentNode(props)]. The test [!result?.tool_calls ||
    result.tool_calls.length === 0] holds when the response has no
    [tool_calls] list or an empty one. *)
Definition runAgentNode (state : State) (agent : Runnable) (name : string)
    (config : option RunnableConfig) : Outcome Update :=
  await result <- agent state config;
  let result :=
    if absent (tool_calls result) || Nat.eqb (tool_call_count result) 0
    then HumanMessage (with_name result name)
    else result in
  Returned {| u_messages := Some [result]; u_sender := Some name |}.

(** The agents built by [createAgent]: a prompt piped into the model. *)
Variable researchAgent : Runnable.
Variable chartAgent : Runnable.

Definition researchNode (state : State) (config : option RunnableConfig)
    : Outcome Update :=
  runAgentNode state researchAgent "Researcher" config.

Definition chartNode (state : State) : Outcome Update :=
  runAgentNode state chartAgent "ChartGenerator" None.

(** The update a node of a run may return: one of the two agent nodes'
    updates, or a tool dispatcher's update, which has no [sender]. *)
Inductive node_update (s : State) (u : Update) : Prop :=
  | by_researchNode (config : option RunnableConfig) :
      researchNode s config = Returned u -> node_update s u
  | by_chartNode :
      chartNode s = Returned u -> node_update s u
  | by_dispatcher :
      u_sender u = None -> node_update s u.

(** The states of a run: it starts with the channel default ["user"]
    or the example invocation's ["User"], and each step merges the
    update of a node. *)
Inductive reachable : State -> Prop :=
  | reach_init (msgs : list BaseMessage) (s0 : string) :
      s0 = sender_default \/ s0 = "User" ->
      reachable {| messages := msgs; sender := s0 |}
  | reach_step (s : State) (u : Update) :
      reachable s -> node_update s u -> reachable (apply_update s u).

(** [researchNode({ messages: [new HumanMessage(...)], sender: "User" })] *)
Definition example_input : State :=
  {| messages := [HumanMessage_of_text "Research the US primaries in 2024"];
     sender := "User" |}.

Definition researchResults : Outcome Update :=
  researchNode example_input None.

End Agents.

Arguments runAgentNode {RunnableConfig} state agent name config.
Arguments researchNode {RunnableConfig} researchAgent state config.
Arguments chartNode {RunnableConfig} chartAgent state.
Arguments node_update {RunnableConfig} researchAgent chartAgent s u.
Arguments reachable {RunnableConfig} researchAgent chartAgent _.
Arguments researchResults {RunnableConfig} researchAgent.

(** ** The chart tool *)

Section ChartTool.

(** JavaScript numbers are kept abstract: a literal, the arithmetic the
    handler does, and [toString]. *)
Variable num : Type.
Variable lit : Q -> num.
Variable nadd : num -> num -> num.
Variable nsub : num -> num -> num.
Variable ndiv : num -> num -> num.
Variable num_toString : num -> string.

(** The schema's [{ label: string, value: number }]. *)
Record DataPoint : Type := {
  label : string;
  value : num
}.

(** What the handler uses of a d3 band scale [x]: [x(label)] (undefined
    outside the domain), [x.bandwidth()] and [x.domain()]. *)
Record BandScale : Type := {
  band_at : string -> option num;
  bandwidth : num;
  band_domain : list string
}.

(** What the handler uses of a d3 linear scale [y]: [y(v)] and
    [y.ticks()]. *)
Record LinearScale : Type := {
  linear_at : num -> num;
  ticks : list num
}.

(** [d3.scaleBand().domain(d).range([a, b]).padding(p)] *)
Variable scaleBand : list string -> num * num -> num -> BandScale.

(** [d3.scaleLinear().domain([a, b]).nice().range([c, d])] *)
Variable scaleLinear : num * num -> num * num -> LinearScale.

(** [d3.max(values)]: undefined on the empty array. *)
Variable d3_max : list num -> option num.

(** The calls the handler makes on the 2D context. *)
Inductive CanvasCall : Type :=
  | set_fillStyle (v : string)
  | fillRect (x y w h : num)
  | beginPath
  | set_strokeStyle (v : string)
  | moveTo (x y : num)
  | lineTo (x y : num)
  | stroke
  | set_textAlign (v : string)
  | set_textBaseline (v : string)
  | fillText (text : string) (x y : num).

(** The canvas and the notebook display are collaborators whose calls
    return or throw. *)
Variable Canvas : Type.
Variable Buffer : Type.
Variable Display : Type.
Variable createCanvas : num -> num -> Outcome Canvas.
Variable ctx_call : CanvasCall -> Canvas -> Outcome Canvas.
Variable toBuffer : Canvas -> Outcome Buffer.
Variable display_png : Buffer -> Display -> Outcome Display.

(** A run of context calls, in order. *)
Fixpoint ctx_calls (calls : list CanvasCall) (canvas : Canvas) : Outcome Canvas :=
  match calls with
  | [] => Returned canvas
  | c :: rest => await canvas' <- ctx_call c canvas; ctx_calls rest canvas'
  end.

(** [array.forEach((d, idx) => body)] for a body that draws. *)
Fixpoint forEach {A : Type} (body : A -> nat -> Canvas -> Outcome Canvas)
    (array : list A) (idx : nat) (canvas : Canvas) : Outcome Canvas :=
  match array with
  | [] => Returned canvas
  | d :: rest =>
      await canvas' <- body d idx canvas; forEach body rest (S idx) canvas'
  end.

Definition colorPalette : list string :=
  ["#e6194B"; "#3cb44b"; "#ffe119"; "#4363d8"; "#f58231";
   "#911eb4"; "#42d4f4"; "#f032e6"; "#bfef45"; "#fabebe"].

(** The handler of [chartTool]: it draws on a fresh canvas, shows the
    canvas on the display and returns a fixed sentence. *)
Definition chartTool_func (data : list DataPoint) (display : Display)
    : Outcome (string * Display) :=
  let width := lit 500%Q in
  let height := lit 500%Q in
  let margin_top := lit 20%Q in
  let margin_right := lit 30%Q in
  let margin_bottom := lit 30%Q in
  let margin_left := lit 40%Q in
  await canvas <- createCanvas width height;
  let x :=
    scaleBand (map label data) (margin_left, nsub width margin_right) (lit 0.1%Q) in
  let y :=
    scaleLinear (lit 0%Q, default (lit 0%Q) (d3_max (map value data)))
                (nsub height margin_bottom, margin_top) in
  await canvas <-
    forEach (fun d idx =>
      ctx_calls
        [set_fillStyle
           (default "" (colorPalette !! (idx mod length colorPalette)));
         fillRect (default (lit 0%Q) (band_at x (label d)))
                  (linear_at y (value d))
                  (bandwidth x)
                  (nsub (nsub height margin_bottom) (linear_at y (value d)))])
      data 0 canvas;
  await canvas <-
    ctx_calls
      [beginPath;
       set_strokeStyle "black";
       moveTo margin_left (nsub height margin_bottom);
       lineTo (nsub width margin_right) (nsub height margin_bottom);
       stroke;
       set_textAlign "center";
       set_textBaseline "top"] canvas;
  await canvas <-
    forEach (fun d _ =>
      let xCoord :=
        nadd (default (lit 0%Q) (band_at x d)) (ndiv (bandwidth x) (lit 2%Q)) in
      ctx_calls [fillText d xCoord (nadd (nsub height margin_bottom) (lit 6%Q))])
      (band_domain x) 0 canvas;
  await canvas <-
    ctx_calls
      [beginPath;
       moveTo margin_left (nsub height margin_top);
       lineTo margin_left (nsub height margin_bottom);
       stroke;
       set_textAlign "right";
       set_textBaseline "middle"] canvas;
  await canvas <-
    forEach (fun d _ =>
      let yCoord := linear_at y d in
      ctx_calls
        [moveTo margin_left yCoord;
         lineTo (nsub margin_left (lit 6%Q)) yCoord;
         stroke;
         fillText (num_toString d) (nsub margin_left (lit 8%Q)) yCoord])
      (ticks y) 0 canvas;
  await buffer <- toBuffer canvas;
  await display <- display_png buffer display;
  Returned ("Chart has been generated and displayed to the user!", display).

(** [tool(func, { name, description, schema })]; the schema is the type
    of [func]'s argument. *)
Record Tool : Type := {
  tool_func : list DataPoint -> Display -> Outcome (string * Display);
  tool_name : string;
  tool_description : string
}.

Definition chartTool : Tool :=
  {| tool_func := chartTool_func;
     tool_name := "generate_bar_chart";
     tool_description :=
       "Generates a bar chart from an array of data points using D3.js and displays it for the user." |}.

End ChartTool.

Definition known_sender (s : string) : Prop :=
  s = "Researcher" \/ s = "ChartGenerator" \/ s = "user" \/ s = "User".

End MultiAgent.

(** * The single-agent script *)

Module SingleAgent.

(** The state of [StateAnnotation] and a node's partial update of it. *)
Record State : Type := {
  messages : list BaseMessage
}.

Record Update : Type := {
  u_messages : option (list BaseMessage)
}.

(** [reducer: (currentState, updateValue) => currentState.concat(updateValue)] *)
Definition messages_reducer (currentState updateValue : list BaseMessage)
    : list BaseMessage :=
  currentState ++ updateValue.

(** [default: () => []] *)
Definition messages_default : list BaseMessage := [].

(** Modelled from the spec: the merge of a step's delta with the
    field's declared reducer (sections 2 and 4.4); the graph library
    that applies the annotation is not under src/. *)
Definition apply_update (s : State) (u : Update) : State :=
  {| messages :=
       match u_messages u with
       | Some y => messages_reducer (messages s) y
       | None => messages s
       end |}.

Definition apply_updates (s : State) (us : list Update) : State :=
  foldl apply_update s us.

Definition update_size (u : Update) : nat :=
  from_option length 0 (u_messages u).

(** [shouldContinue(state)]. [messages[messages.length - 1]] is
    [undefined] on the empty array, and reading [tool_calls] of
    [undefined] throws a [TypeError]. *)
Definition shouldContinue (state : State) : Outcome string :=
  let messages := messages state in
  match last messages with
  | None =>
      Threw (TypeError "Cannot read properties of undefined (reading 'tool_calls')")
  | Some lastMessage =>
      if truthy (tool_calls_length lastMessage)
      then Returned "tools"
      else Returned "__end__"
  end.

(** The graph under construction: the nodes with their actions, the
    fixed edges, and the conditional edges with their routing
    functions. *)
Record StateGraph : Type := {
  nodes : list (string * (State -> Outcome Update));
  edges : list (string * string);
  branches : list (string * (State -> Outcome string))
}.

(** [new StateGraph(StateAnnotation)] *)
Definition new_StateGraph : StateGraph :=
  {| nodes := []; edges := []; branches := [] |}.

Definition addNode (key : string) (action : State -> Outcome Update)
    (g : StateGraph) : StateGraph :=
  {| nodes := nodes g ++ [(key, action)];
     edges := edges g;
     branches := branches g |}.

Definition addEdge (startKey endKey : string) (g : StateGraph) : StateGraph :=
  {| nodes := nodes g;
     edges := edges g ++ [(startKey, endKey)];
     branches := branches g |}.

Definition addConditionalEdges (source : string)
    (path : State -> Outcome string) (g : StateGraph) : StateGraph :=
  {| nodes := nodes g;
     edges := edges g;
     branches := branches g ++ [(source, path)] |}.

(** The fixed edges out of a node, and its routing function if it has
    conditional edges. *)
Definition fixed_successors (g : StateGraph) (n : string) : list string :=
  snd <$> List.filter (fun e => String.eqb (fst e) n) (edges g).

Definition branch_of (g : StateGraph) (n : string)
    : option (State -> Outcome string) :=
  snd <$> List.find (fun b => String.eqb (fst b) n) (branches g).

Definition action_of (g : StateGraph) (n : string)
    : option (State -> Outcome Update) :=
  snd <$> List.find (fun kv => String.eqb (fst kv) n) (nodes g).

(** Modelled from the spec: the orchestrator's evaluation of the edges
    out of a node (section 4.4: either the routing function's output or
    a fixed successor); the executor belongs to the graph library and is
    not under src/. *)
Definition next_node (g : StateGraph) (n : string) (s : State) : Outcome string :=
  match branch_of g n with
  | Some path => path s
  | None =>
      match fixed_successors g n with
      | target :: _ => Returned target
      | [] => Threw (CollaboratorError "node without an outgoing edge")
      end
  end.

(** Modelled from the spec: one orchestrator transition (section 4.4):
    invoke the node's action on the current state, merge the returned
    update with the channel's reducer, then pick the next node; the
    executor belongs to the graph library and is not under src/. *)
Definition step (g : StateGraph) (n : string) (s : State)
    : Outcome (State * string) :=
  match action_of g n with
  | None => Threw (CollaboratorError "unknown node")
  | Some action =>
      await u <- action s;
      let s' := apply_update s u in
      await n' <- next_node g n s';
      Returned (s', n')
  end.

(** The configuration after [k] transitions; a run that has reached the
    terminal marker stays there. *)
Fixpoint after_steps (k : nat) (g : StateGraph) (n : string) (s : State)
    : Outcome (string * State) :=
  match k with
  | O => Returned (n, s)
  | S k' =>
      if String.eqb n "__end__" then Returned (n, s)
      else await r <- step g n s; after_steps k' g (snd r) (fst r)
  end.

(** Modelled from the spec: the result of a run under an
    operator-configured maximum step count (sections 4.4 and 7): the
    final state, or [StepLimitExceeded] with the state merged so far and
    the number of steps taken, or the error of a failed step. The script
    itself configures no limit, and the executor belongs to the graph
    library and is not under src/. *)
Inductive RunResult : Type :=
  | Finished (s : State)
  | StepLimitExceeded (s : State) (taken : nat)
  | StepFailed (e : Exn).

Fixpoint run_from (limit : nat) (g : StateGraph) (n : string) (s : State)
    (taken : nat) : RunResult :=
  if String.eqb n "__end__" then Finished s
  else
    match limit with
    | O => StepLimitExceeded s taken
    | S limit' =>
        match step g n s with
        | Returned (s', n') => run_from limit' g n' s' (S taken)
        | Threw e => StepFailed e
        end
    end.

(** The state a run starts from: the channel default merged with the
    input. (The checkpointer and the thread id of the script's
    invocation play no part in what follows.) *)
Definition initial_state (input : Update) : State :=
  apply_update {| messages := messages_default |} input.

Definition run (limit : nat) (g : StateGraph) (input : Update) : RunResult :=
  match next_node g "__start__" (initial_state input) with
  | Returned n => run_from limit g n (initial_state input) 0
  | Threw e => StepFailed e
  end.

Section Graph.

(** [model.invoke(messages)] returns a response or throws. *)
Variable model : list BaseMessage -> Outcome BaseMessage.

(** [new ToolNode(tools)], the prebuilt tool node. *)
Variable toolNode : State -> Outcome Update.

(** [callModel(state)] *)
Definition callModel (state : State) : Outcome Update :=
  let messages := messages state in
  await response <- model messages;
  Returned {| u_messages := Some [response] |}.

(** The graph of the script, built call by call. *)
Definition graph : StateGraph :=
  let g := new_StateGraph in
  let g := addNode "agent" callModel g in
  let g := addNode "tools" toolNode g in
  let g := addEdge "__start__" "agent" g in
  let g := addConditionalEdges "agent" shouldContinue g in
  addEdge "tools" "agent" g.

(** The input of [getFinalState]. *)
Definition getFinalState_input : Update :=
  {| u_messages := Some [HumanMessage_of_text "What is LangGraph??"] |}.

End Graph.

End SingleAgent.

(** * The calls of the chart handler

    The handler of [chartTool] read as the list of calls it makes on the
    2D context, in order: each [forEach] contributes the calls of its
    body, once per element. *)

Module ChartCalls.

Section Calls.

Variable num : Type.
Variable lit : Q -> num.
Variable nadd : num -> num -> num.
Variable nsub : num -> num -> num.
Variable ndiv : num -> num -> num.
Variable num_toString : num -> string.
Variable scaleBand : list string -> num * num -> num -> MultiAgent.BandScale num.
Variable scaleLinear : num * num -> num * num -> MultiAgent.LinearScale num.
Variable d3_max : list num -> option num.

(** The scale [x] over the labels and the scale [y] over the values. *)
Definition x_scale (data : list (MultiAgent.DataPoint num))
    : MultiAgent.BandScale num :=
  scaleBand (map (MultiAgent.label num) data)
    (lit 40%Q, nsub (lit 500%Q) (lit 30%Q)) (lit 0.1%Q).

Definition y_scale (data : list (MultiAgent.DataPoint num))
    : MultiAgent.LinearScale num :=
  scaleLinear
    (lit 0%Q, default (lit 0%Q) (d3_max (map (MultiAgent.value num) data)))
    (nsub (lit 500%Q) (lit 30%Q), lit 20%Q).

(** The body of [data.forEach((d, idx) => ...)]: one bar. *)
Definition bar_calls (data : list (MultiAgent.DataPoint num))
    (d : MultiAgent.DataPoint num) (idx : nat)
    : list (MultiAgent.CanvasCall num) :=
  [MultiAgent.set_fillStyle num
     (default ""
        (MultiAgent.colorPalette !! (idx mod length MultiAgent.colorPalette)));
   MultiAgent.fillRect num
     (default (lit 0%Q)
        (MultiAgent.band_at num (x_scale data) (MultiAgent.label num d)))
     (MultiAgent.linear_at num (y_scale data) (MultiAgent.value num d))
     (MultiAgent.bandwidth num (x_scale data))
     (nsub (nsub (lit 500%Q) (lit 30%Q))
        (MultiAgent.linear_at num (y_scale data) (MultiAgent.value num d)))].

(** The horizontal axis and the text settings of its labels. *)
Definition x_axis_calls : list (MultiAgent.CanvasCall num) :=
  [MultiAgent.beginPath num;
   MultiAgent.set_strokeStyle num "black";
   MultiAgent.moveTo num (lit 40%Q) (nsub (lit 500%Q) (lit 30%Q));
   MultiAgent.lineTo num (nsub (lit 500%Q) (lit 30%Q))
     (nsub (lit 500%Q) (lit 30%Q));
   MultiAgent.stroke num;
   MultiAgent.set_textAlign num "center";
   MultiAgent.set_textBaseline num "top"].

(** The body of [x.domain().forEach((d) => ...)]: one label. *)
Definition label_calls (data : list (MultiAgent.DataPoint num)) (d : string)
    : list (MultiAgent.CanvasCall num) :=
  [MultiAgent.fillText num d
     (nadd (default (lit 0%Q) (MultiAgent.band_at num (x_scale data) d))
        (ndiv (MultiAgent.bandwidth num (x_scale data)) (lit 2%Q)))
     (nadd (nsub (lit 500%Q) (lit 30%Q)) (lit 6%Q))].

(** The vertical axis and the text settings of its ticks. *)
Definition y_axis_calls : list (MultiAgent.CanvasCall num) :=
  [MultiAgent.beginPath num;
   MultiAgent.moveTo num (lit 40%Q) (nsub (lit 500%Q) (lit 20%Q));
   MultiAgent.lineTo num (lit 40%Q) (nsub (lit 500%Q) (lit 30%Q));
   MultiAgent.stroke num;
   MultiAgent.set_textAlign num "right";
   MultiAgent.set_textBaseline num "middle"].

(** The body of [ticks.forEach((d) => ...)]: one tick mark and its
    number. *)
Definition tick_calls (data : list (MultiAgent.DataPoint num)) (d : num)
    : list (MultiAgent.CanvasCall num) :=
  [MultiAgent.moveTo num (lit 40%Q) (MultiAgent.linear_at num (y_scale data) d);
   MultiAgent.lineTo num (nsub (lit 40%Q) (lit 6%Q))
     (MultiAgent.linear_at num (y_scale data) d);
   MultiAgent.stroke num;
   MultiAgent.fillText num (num_toString d) (nsub (lit 40%Q) (lit 8%Q))
     (MultiAgent.linear_at num (y_scale data) d)].

(** The calls of [array.forEach((d, idx) => ...)] whose body makes the
    calls [body d idx]. *)
Fixpoint forEach_calls {A : Type}
    (body : A -> nat -> list (MultiAgent.CanvasCall num))
    (array : list A) (idx : nat) : list (MultiAgent.CanvasCall num) :=
  match array with
  | [] => []
  | d :: rest => body d idx ++ forEach_calls body rest (S idx)
  end.

(** All the calls of the handler, in the order of its statements. *)
Definition chart_calls (data : list (MultiAgent.DataPoint num))
    : list (MultiAgent.CanvasCall num) :=
  forEach_calls (bar_calls data) data 0
  ++ x_axis_calls
  ++ forEach_calls (fun d _ => label_calls data d)
       (MultiAgent.band_domain num (x_scale data)) 0
  ++ y_axis_calls
  ++ forEach_calls (fun d _ => tick_calls data d)
       (MultiAgent.ticks num (y_scale data)) 0.

End Calls.

Definition is_fillRect {num : Type} (c : MultiAgent.CanvasCall num) : bool :=
  match c with
  | MultiAgent.fillRect _ _ _ _ _ => true
  | _ => false
  end.

Definition is_fillText {num : Type} (c : MultiAgent.CanvasCall num) : bool :=
  match c with
  | MultiAgent.fillText _ _ _ _ => true
  | _ => false
  end.

Definition is_stroke {num : Type} (c : MultiAgent.CanvasCall num) : bool :=
  match c with
  | MultiAgent.stroke _ => true
  | _ => false
  end.

End ChartCalls.

(** * The report of the single-agent script *)

Module Report.

Definition separator : string := "-------------".

(** [fs.messages.forEach((message) => { console.log(message.content);
    console.log("-------------") })], with the console as the list of
    lines written so far. *)
Definition log_messages (messages : list BaseMessage) (console : list string)
    : list string :=
  foldl (fun console message => (console ++ [content message]) ++ [separator])
    console messages.

End Report.

(** * Test doubles

    Stand-ins for the collaborators, used to run the definitions on
    concrete inputs. *)

Module Stubs.

Definition search_call : ToolCall :=
  {| tc_name := "tavily_search_results_json";
     tc_args := "{ query: X }";
     tc_id := Some "call_1" |}.

(** A model response that answers in text. *)
Definition echo_response : BaseMessage :=
  {| msg_type := ai; content := "echo"; name := None; tool_calls := Some [] |}.

(** A model response that requests a tool. *)
Definition tool_request : BaseMessage :=
  {| msg_type := ai; content := ""; name := None;
     tool_calls := Some [search_call] |}.

Definition tool_result : BaseMessage :=
  {| msg_type := tool; content := "result"; name := Some "tavily_search_results_json";
     tool_calls := None |}.

Definition echo_agent : MultiAgent.Runnable unit :=
  fun _ _ => Returned echo_response.

Definition requesting_agent : MultiAgent.Runnable unit :=
  fun _ _ => Returned tool_request.

Definition failing_agent : MultiAgent.Runnable unit :=
  fun _ _ => Threw (CollaboratorError "rate limit").

Definition echo_model : list BaseMessage -> Outcome BaseMessage :=
  fun _ => Returned echo_response.

(** A model that requests a tool on every call. *)
Definition looping_model : list BaseMessage -> Outcome BaseMessage :=
  fun _ => Returned tool_request.

Definition result_toolNode : SingleAgent.State -> Outcome SingleAgent.Update :=
  fun _ => Returned {| SingleAgent.u_messages := Some [tool_result] |}.

(** A canvas that records the calls made on it, and a display that
    records what it was shown. *)
Definition recording_canvas : Type := list (MultiAgent.CanvasCall Q).

Definition band (domain : list string) (range : Q * Q) (padding : Q)
    : MultiAgent.BandScale Q :=
  {| MultiAgent.band_at :=
       fun l => if bool_decide (l ∈ domain) then Some (fst range) else None;
     MultiAgent.bandwidth := Qminus (snd range) (fst range);
     MultiAgent.band_domain := remove_dups domain |}.

Definition linear (domain range : Q * Q) : MultiAgent.LinearScale Q :=
  {| MultiAgent.linear_at := fun v => Qplus (fst range) v;
     MultiAgent.ticks := [fst domain; snd domain] |}.

Definition chart : MultiAgent.Tool Q (list recording_canvas) :=
  MultiAgent.chartTool Q (fun q => q) Qplus Qminus Qdiv (fun _ => "0")
    band linear
    (fun l => match l with [] => None | v :: _ => Some v end)
    recording_canvas recording_canvas (list recording_canvas)
    (fun _ _ => Returned [])
    (fun c canvas => Returned (canvas ++ [c]))
    (fun canvas => Returned canvas)
    (fun buffer display => Returned (display ++ [buffer])).

Definition two_bars : list (MultiAgent.DataPoint Q) :=
  [ {| MultiAgent.label := "a"; MultiAgent.value := 1%Q |};
    {| MultiAgent.label := "b"; MultiAgent.value := 2%Q |} ].

End Stubs.

(** * Properties *)

(** ** Outcomes and messages *)

Lemma obind_returned {A B : Type} (c : Outcome A) (k : A -> Outcome B) (b : B) :
  obind c k = Returned b -> exists a, c = Returned a /\ k a = Returned b.
Proof.
  destruct c as [a | e]; simpl; intros H.
  - exists a. split; [reflexivity | exact H].
  - discriminate H.
Qed.

Lemma truthy_count (m : BaseMessage) :
  truthy (tool_calls_length m) = negb (Nat.eqb (tool_call_count m) 0).
Proof.
  unfold tool_calls_length, tool_call_count.
  destruct (tool_calls m) as [l |]; simpl; [| reflexivity].
  destruct l; reflexivity.
Qed.

Lemma absent_or_empty (m : BaseMessage) :
  absent (tool_calls m) || Nat.eqb (tool_call_count m) 0
  = Nat.eqb (tool_call_count m) 0.
Proof.
  unfold tool_call_count. destruct (tool_calls m); reflexivity.
Qed.

(** ** The message log only grows *)

Lemma multi_messages_fold (us : list MultiAgent.Update) :
  forall s : MultiAgent.State,
    MultiAgent.messages (MultiAgent.apply_updates s us)
    = MultiAgent.messages s
      ++ concat ((fun u => default [] (MultiAgent.u_messages u)) <$> us).
Proof.
  induction us as [| u us IH]; intros s; simpl.
  - symmetry. apply app_nil_r.
  - unfold MultiAgent.apply_updates in *. simpl. rewrite IH. simpl.
    unfold MultiAgent.messages_reducer.
    destruct (MultiAgent.u_messages u) as [y |]; simpl.
    + symmetry. apply app_assoc.
    + reflexivity.
Qed.

Lemma single_messages_fold (us : list SingleAgent.Update) :
  forall s : SingleAgent.State,
    SingleAgent.messages (SingleAgent.apply_updates s us)
    = SingleAgent.messages s
      ++ concat ((fun u => default [] (SingleAgent.u_messages u)) <$> us).
Proof.
  induction us as [| u us IH]; intros s; simpl.
  - symmetry. apply app_nil_r.
  - unfold SingleAgent.apply_updates in *. simpl. rewrite IH. simpl.
    unfold SingleAgent.messages_reducer.
    destruct (SingleAgent.u_messages u) as [y |]; simpl.
    + symmetry. apply app_assoc.
    + reflexivity.
Qed.

Lemma length_concat_sizes {U : Type} (get : U -> option (list BaseMessage))
    (us : list U) :
  length (concat ((fun u => default [] (get u)) <$> us))
  = sum_list ((fun u => from_option length 0 (get u)) <$> us).
Proof.
  induction us as [| u us IH]; [reflexivity |].
  rewrite !fmap_cons. simpl. rewrite length_app, IH.
  destruct (get u); reflexivity.
Qed.

(** C1. After any sequence of steps the length of [messages] is the
    initial length plus the sum of the lengths of the message lists the
    steps' updates return, and the log of an earlier point of the run is
    a prefix of the log of every later point: nothing is replaced or
    removed. This holds for [AgentState] and for [StateAnnotation],
    whose reducers are both list concatenation. *)
Theorem messages_append_only :
  (forall x y : list BaseMessage, MultiAgent.messages_reducer x y = x ++ y)
  /\
  (forall x y : list BaseMessage, SingleAgent.messages_reducer x y = x ++ y)
  /\
  (forall (s : MultiAgent.State) (us us' : list MultiAgent.Update),
      length (MultiAgent.messages (MultiAgent.apply_updates s us))
      = length (MultiAgent.messages s)
        + sum_list (MultiAgent.update_size <$> us)
      /\ MultiAgent.messages (MultiAgent.apply_updates s us)
         `prefix_of` MultiAgent.messages (MultiAgent.apply_updates s (us ++ us')))
  /\
  (forall (s : SingleAgent.State) (us us' : list SingleAgent.Update),
      length (SingleAgent.messages (SingleAgent.apply_updates s us))
      = length (SingleAgent.messages s)
        + sum_list (SingleAgent.update_size <$> us)
      /\ SingleAgent.messages (SingleAgent.apply_updates s us)
         `prefix_of` SingleAgent.messages (SingleAgent.apply_updates s (us ++ us'))).
Proof.
  split; [reflexivity |]. split; [reflexivity |].
  split; intros s us us'.
  - split.
    + rewrite multi_messages_fold, length_app.
      rewrite (length_concat_sizes MultiAgent.u_messages). reflexivity.
    + rewrite !multi_messages_fold, fmap_app, concat_app, app_assoc.
      apply prefix_app_r. reflexivity.
  - split.
    + rewrite single_messages_fold, length_app.
      rewrite (length_concat_sizes SingleAgent.u_messages). reflexivity.
    + rewrite !single_messages_fold, fmap_app, concat_app, app_assoc.
      apply prefix_app_r. reflexivity.
Qed.

(** ** The sender marker *)

Lemma sender_reducer_present (x : option string) (y : string) :
  MultiAgent.sender_reducer x (Some y) = y.
Proof. reflexivity. Qed.

Lemma sender_reducer_missing (x : string) :
  MultiAgent.sender_reducer (Some x) None = x.
Proof. reflexivity. Qed.

Lemma sender_reducer_both_missing :
  MultiAgent.sender_reducer None None = "user".
Proof. reflexivity. Qed.

Lemma sender_apply_update (s : MultiAgent.State) (u : MultiAgent.Update) :
  MultiAgent.sender (MultiAgent.apply_update s u)
  = default (MultiAgent.sender s) (MultiAgent.u_sender u).
Proof.
  simpl. destruct (MultiAgent.u_sender u); reflexivity.
Qed.

Lemma sender_fold (us : list MultiAgent.Update) :
  forall s : MultiAgent.State,
    MultiAgent.sender (MultiAgent.apply_updates s us)
    = default (MultiAgent.sender s) (MultiAgent.last_sender us).
Proof.
  induction us as [| u us IH]; intros s; [reflexivity |].
  change (MultiAgent.apply_updates s (u :: us))
    with (MultiAgent.apply_updates (MultiAgent.apply_update s u) us).
  rewrite IH, sender_apply_update. simpl.
  destruct (MultiAgent.last_sender us); [reflexivity |].
  destruct (MultiAgent.u_sender u); reflexivity.
Qed.

(** C2. Merging an update that supplies an agent name sets [sender] to
    that name; merging an update that supplies none leaves [sender] as
    it was. Over a sequence of steps [sender] is therefore the name of
    the last update that supplied one, or the initial value if none
    did: the reducer is last-write-wins over the values present. *)
Theorem sender_last_write_wins :
  (forall (s : MultiAgent.State) (msgs : option (list BaseMessage)) (n : string),
      MultiAgent.sender
        (MultiAgent.apply_update s
           {| MultiAgent.u_messages := msgs; MultiAgent.u_sender := Some n |})
      = n)
  /\
  (forall (s : MultiAgent.State) (msgs : option (list BaseMessage)),
      MultiAgent.sender
        (MultiAgent.apply_update s
           {| MultiAgent.u_messages := msgs; MultiAgent.u_sender := None |})
      = MultiAgent.sender s)
  /\
  (forall (s : MultiAgent.State) (us : list MultiAgent.Update),
      MultiAgent.sender (MultiAgent.apply_updates s us)
      = default (MultiAgent.sender s) (MultiAgent.last_sender us))
  /\
  (forall (x : string) (y : option string),
      MultiAgent.sender_reducer (Some x) y = default x y).
Proof.
  split; [reflexivity |]. split; [reflexivity |].
  split; [intros s us; apply sender_fold |].
  intros x [y |]; reflexivity.
Qed.

(** ** Agent nodes *)

Section AgentNodes.

Context {RunnableConfig : Type}.
Variable researchAgent : MultiAgent.Runnable RunnableConfig.
Variable chartAgent : MultiAgent.Runnable RunnableConfig.

Lemma runAgentNode_returned (state : MultiAgent.State)
    (agent : MultiAgent.Runnable RunnableConfig) (agent_name : string)
    (config : option RunnableConfig) (response : BaseMessage) :
  agent state config = Returned response ->
  MultiAgent.runAgentNode state agent agent_name config
  = Returned
      {| MultiAgent.u_messages :=
           Some [if Nat.eqb (tool_call_count response) 0
                 then HumanMessage (with_name response agent_name)
                 else response];
         MultiAgent.u_sender := Some agent_name |}.
Proof.
  intros H. unfold MultiAgent.runAgentNode. rewrite H. simpl.
  rewrite absent_or_empty.
  destruct (Nat.eqb (tool_call_count response) 0); reflexivity.
Qed.

Lemma runAgentNode_threw (state : MultiAgent.State)
    (agent : MultiAgent.Runnable RunnableConfig) (agent_name : string)
    (config : option RunnableConfig) (e : Exn) :
  agent state config = Threw e ->
  MultiAgent.runAgentNode state agent agent_name config = Threw e.
Proof.
  intros H. unfold MultiAgent.runAgentNode. rewrite H. reflexivity.
Qed.

Lemma runAgentNode_sender (state : MultiAgent.State)
    (agent : MultiAgent.Runnable RunnableConfig) (agent_name : string)
    (config : option RunnableConfig) (u : MultiAgent.Update) :
  MultiAgent.runAgentNode state agent agent_name config = Returned u ->
  MultiAgent.u_sender u = Some agent_name.
Proof.
  unfold MultiAgent.runAgentNode. intros H.
  apply obind_returned in H as (response & _ & H).
  injection H as <-. reflexivity.
Qed.

(** C3. When the agent's model call returns a response, the agent step
    returns the update [{ messages: [m], sender: name }] with exactly
    one message [m]; and when the response carries no tool invocation,
    [m] is a human message with the response's content and the agent's
    name. (A response that does carry tool invocations is returned as
    it is.) *)
Theorem runAgentNode_delta (state : MultiAgent.State)
    (agent : MultiAgent.Runnable RunnableConfig) (agent_name : string)
    (config : option RunnableConfig) (response : BaseMessage)
    (Hmodel : agent state config = Returned response) :
  exists m : BaseMessage,
    MultiAgent.runAgentNode state agent agent_name config
    = Returned {| MultiAgent.u_messages := Some [m];
                  MultiAgent.u_sender := Some agent_name |}
    /\ (tool_call_count response = 0 ->
        msg_type m = human
        /\ name m = Some agent_name
        /\ content m = content response
        /\ tool_call_count m = 0)
    /\ (tool_call_count response <> 0 -> m = response).
Proof.
  eexists. split.
  - apply runAgentNode_returned. exact Hmodel.
  - split; intros Hc.
    + rewrite Hc. simpl. repeat split; reflexivity.
    + apply Nat.eqb_neq in Hc. rewrite Hc. reflexivity.
Qed.

(** C8. In every state of a run that starts from the sentinel sender and
    merges the updates of [researchNode], [chartNode] and tool steps,
    [sender] is ["Researcher"], ["ChartGenerator"], ["user"] or
    ["User"]. *)
Theorem reachable_sender_known (s : MultiAgent.State)
    (Hreach : MultiAgent.reachable researchAgent chartAgent s) :
  MultiAgent.known_sender (MultiAgent.sender s).
Proof.
  induction Hreach as [msgs s0 [-> | ->] | s u Hreach IH Hnode].
  - right. right. left. reflexivity.
  - right. right. right. reflexivity.
  - rewrite sender_apply_update.
    destruct Hnode as [config Hnode | Hnode | Hnone].
    + apply runAgentNode_sender in Hnode. rewrite Hnode. left. reflexivity.
    + apply runAgentNode_sender in Hnode. rewrite Hnode.
      right. left. reflexivity.
    + rewrite Hnone. exact IH.
Qed.

End AgentNodes.

(** Spec scenario: the example state, an agent whose model echoes a
    response without tool calls. *)
Example researchNode_echo :
  MultiAgent.researchResults Stubs.echo_agent
  = Returned
      {| MultiAgent.u_messages :=
           Some [ {| msg_type := human; content := "echo";
                     name := Some "Researcher"; tool_calls := None |} ];
         MultiAgent.u_sender := Some "Researcher" |}.
Proof. reflexivity. Qed.

Example researchNode_tool_request :
  MultiAgent.researchNode Stubs.requesting_agent (MultiAgent.example_input) None
  = Returned
      {| MultiAgent.u_messages := Some [Stubs.tool_request];
         MultiAgent.u_sender := Some "Researcher" |}.
Proof. reflexivity. Qed.

Example researchNode_model_error :
  MultiAgent.researchNode Stubs.failing_agent (MultiAgent.example_input) None
  = Threw (CollaboratorError "rate limit").
Proof. reflexivity. Qed.

Lemma runAgentNode_delta_witness :
  exists m : BaseMessage,
    MultiAgent.runAgentNode MultiAgent.example_input Stubs.echo_agent
      "Researcher" None
    = Returned {| MultiAgent.u_messages := Some [m];
                  MultiAgent.u_sender := Some "Researcher" |}
    /\ (tool_call_count Stubs.echo_response = 0 ->
        msg_type m = human
        /\ name m = Some "Researcher"
        /\ content m = content Stubs.echo_response
        /\ tool_call_count m = 0)
    /\ (tool_call_count Stubs.echo_response <> 0 -> m = Stubs.echo_response).
Proof.
  apply (runAgentNode_delta MultiAgent.example_input Stubs.echo_agent
           "Researcher" None Stubs.echo_response).
  reflexivity.
Defined.

(** A run of three steps: the researcher, a tool step, the chart
    generator. *)
Lemma reachable_example :
  MultiAgent.reachable Stubs.requesting_agent Stubs.echo_agent
    (MultiAgent.apply_updates MultiAgent.example_input
       [ {| MultiAgent.u_messages := Some [Stubs.tool_request];
            MultiAgent.u_sender := Some "Researcher" |};
         {| MultiAgent.u_messages := Some [Stubs.tool_result];
            MultiAgent.u_sender := None |};
         {| MultiAgent.u_messages :=
              Some [HumanMessage (with_name Stubs.echo_response "ChartGenerator")];
            MultiAgent.u_sender := Some "ChartGenerator" |} ]).
Proof.
  unfold MultiAgent.apply_updates. simpl foldl.
  apply MultiAgent.reach_step.
  - apply MultiAgent.reach_step.
    + apply MultiAgent.reach_step.
      * apply MultiAgent.reach_init. right. reflexivity.
      * apply MultiAgent.by_researchNode with (config := None). reflexivity.
    + apply MultiAgent.by_dispatcher. reflexivity.
  - apply MultiAgent.by_chartNode. reflexivity.
Defined.

Lemma reachable_sender_known_witness :
  MultiAgent.known_sender
    (MultiAgent.sender
       (MultiAgent.apply_updates MultiAgent.example_input
          [ {| MultiAgent.u_messages := Some [Stubs.tool_request];
               MultiAgent.u_sender := Some "Researcher" |};
            {| MultiAgent.u_messages := Some [Stubs.tool_result];
               MultiAgent.u_sender := None |};
            {| MultiAgent.u_messages :=
                 Some [HumanMessage (with_name Stubs.echo_response "ChartGenerator")];
               MultiAgent.u_sender := Some "ChartGenerator" |} ])).
Proof.
  exact (reachable_sender_known Stubs.requesting_agent Stubs.echo_agent _
           reachable_example).
Defined.

(** ** Routing *)

Lemma shouldContinue_of_last (s : SingleAgent.State) (m : BaseMessage) :
  last (SingleAgent.messages s) = Some m ->
  SingleAgent.shouldContinue s
  = Returned (if Nat.eqb (tool_call_count m) 0 then "__end__" else "tools").
Proof.
  intros H. unfold SingleAgent.shouldContinue. rewrite H, truthy_count.
  destruct (Nat.eqb (tool_call_count m) 0); reflexivity.
Qed.

Lemma shouldContinue_no_last (s : SingleAgent.State) :
  last (SingleAgent.messages s) = None ->
  SingleAgent.shouldContinue s
  = Threw (TypeError "Cannot read properties of undefined (reading 'tool_calls')").
Proof.
  intros H. unfold SingleAgent.shouldContinue. rewrite H. reflexivity.
Qed.

Lemma shouldContinue_end (s : SingleAgent.State) :
  SingleAgent.shouldContinue s = Returned "__end__" ->
  exists m, last (SingleAgent.messages s) = Some m /\ tool_call_count m = 0.
Proof.
  intros H. destruct (last (SingleAgent.messages s)) as [m |] eqn:Hlast.
  - exists m. split; [reflexivity |].
    rewrite (shouldContinue_of_last s m Hlast) in H.
    destruct (Nat.eqb_spec (tool_call_count m) 0) as [Hz | Hnz];
      [exact Hz | discriminate H].
  - rewrite (shouldContinue_no_last s Hlast) in H. discriminate H.
Qed.

(** C4. The routing decision is read off the last message: two states
    with the same last message get the same decision; and when the last
    message carries one or more tool invocations the route is ["tools"],
    when it carries none the route is ["__end__"]. *)
Theorem shouldContinue_last_message (s1 s2 : SingleAgent.State)
    (Hsame : last (SingleAgent.messages s1) = last (SingleAgent.messages s2)) :
  SingleAgent.shouldContinue s1 = SingleAgent.shouldContinue s2
  /\ forall m : BaseMessage,
       last (SingleAgent.messages s1) = Some m ->
       (1 <= tool_call_count m ->
        SingleAgent.shouldContinue s1 = Returned "tools")
       /\ (tool_call_count m = 0 ->
           SingleAgent.shouldContinue s1 = Returned "__end__").
Proof.
  split.
  - unfold SingleAgent.shouldContinue. rewrite Hsame. reflexivity.
  - intros m Hlast. rewrite (shouldContinue_of_last s1 m Hlast).
    split; intros Hc.
    + destruct (Nat.eqb_spec (tool_call_count m) 0) as [Hz | _];
        [lia | reflexivity].
    + rewrite Hc. reflexivity.
Qed.

Lemma shouldContinue_last_message_witness :
  SingleAgent.shouldContinue
    {| SingleAgent.messages := [Stubs.echo_response; Stubs.tool_request] |}
  = SingleAgent.shouldContinue {| SingleAgent.messages := [Stubs.tool_request] |}
  /\ forall m : BaseMessage,
       last [Stubs.echo_response; Stubs.tool_request] = Some m ->
       (1 <= tool_call_count m ->
        SingleAgent.shouldContinue
          {| SingleAgent.messages := [Stubs.echo_response; Stubs.tool_request] |}
        = Returned "tools")
       /\ (tool_call_count m = 0 ->
           SingleAgent.shouldContinue
             {| SingleAgent.messages := [Stubs.echo_response; Stubs.tool_request] |}
           = Returned "__end__").
Proof.
  apply (shouldContinue_last_message
           {| SingleAgent.messages := [Stubs.echo_response; Stubs.tool_request] |}
           {| SingleAgent.messages := [Stubs.tool_request] |}).
  reflexivity.
Defined.

Example shouldContinue_tools :
  SingleAgent.shouldContinue {| SingleAgent.messages := [Stubs.tool_request] |}
  = Returned "tools".
Proof. reflexivity. Qed.

Example shouldContinue_stop :
  SingleAgent.shouldContinue {| SingleAgent.messages := [Stubs.echo_response] |}
  = Returned "__end__".
Proof. reflexivity. Qed.

Example shouldContinue_human :
  SingleAgent.shouldContinue
    {| SingleAgent.messages := [HumanMessage_of_text "What is LangGraph??"] |}
  = Returned "__end__".
Proof. reflexivity. Qed.

(** C5, as the claim states it, fails on the state with the default,
    empty message list: reading [tool_calls] of the missing last message
    throws. *)
Lemma shouldContinue_empty_throws :
  SingleAgent.shouldContinue (SingleAgent.initial_state {| SingleAgent.u_messages := None |})
  = Threw (TypeError "Cannot read properties of undefined (reading 'tool_calls')")
  /\ SingleAgent.messages (SingleAgent.initial_state {| SingleAgent.u_messages := None |})
     = SingleAgent.messages_default.
Proof. split; reflexivity. Qed.

(** C5, amended. On every state whose message list is not empty the
    routing function returns ["tools"] or ["__end__"] without error;
    this covers every state the graph routes on, because routing follows
    the merge of an agent step's one-message update. *)
Theorem shouldContinue_total_nonempty (s : SingleAgent.State)
    (Hnonempty : SingleAgent.messages s <> []) :
  (exists n : string,
      SingleAgent.shouldContinue s = Returned n /\ (n = "tools" \/ n = "__end__"))
  /\ (forall (s0 : SingleAgent.State) (response : BaseMessage),
        exists n : string,
          SingleAgent.shouldContinue
            (SingleAgent.apply_update s0
               {| SingleAgent.u_messages := Some [response] |})
          = Returned n
          /\ (n = "tools" \/ n = "__end__")).
Proof.
  assert (Hroute : forall st m, last (SingleAgent.messages st) = Some m ->
            exists n, SingleAgent.shouldContinue st = Returned n
                      /\ (n = "tools" \/ n = "__end__")).
  { intros st m Hlast. rewrite (shouldContinue_of_last st m Hlast).
    destruct (Nat.eqb (tool_call_count m) 0); eexists; split; eauto. }
  split.
  - destruct (last (SingleAgent.messages s)) as [m |] eqn:Hlast.
    + exact (Hroute s m Hlast).
    + apply last_None in Hlast. contradiction.
  - intros s0 response. apply (Hroute _ response).
    simpl. unfold SingleAgent.messages_reducer. apply last_snoc.
Qed.

Lemma shouldContinue_total_nonempty_witness :
  (exists n : string,
      SingleAgent.shouldContinue {| SingleAgent.messages := [Stubs.tool_request] |}
      = Returned n /\ (n = "tools" \/ n = "__end__"))
  /\ (forall (s0 : SingleAgent.State) (response : BaseMessage),
        exists n : string,
          SingleAgent.shouldContinue
            (SingleAgent.apply_update s0
               {| SingleAgent.u_messages := Some [response] |})
          = Returned n
          /\ (n = "tools" \/ n = "__end__")).
Proof.
  apply (shouldContinue_total_nonempty
           {| SingleAgent.messages := [Stubs.tool_request] |}).
  simpl. discriminate.
Defined.

(** ** The graph *)

Section GraphFacts.

Variable model : list BaseMessage -> Outcome BaseMessage.
Variable toolNode : SingleAgent.State -> Outcome SingleAgent.Update.

Local Abbreviation graph := (SingleAgent.graph model toolNode).

Lemma graph_edges :
  SingleAgent.edges graph = [("__start__", "agent"); ("tools", "agent")]
  /\ fst <$> SingleAgent.branches graph = ["agent"]
  /\ fst <$> SingleAgent.nodes graph = ["agent"; "tools"].
Proof. repeat split. Qed.

Lemma next_node_start (s : SingleAgent.State) :
  SingleAgent.next_node graph "__start__" s = Returned "agent".
Proof. reflexivity. Qed.

Lemma next_node_agent (s : SingleAgent.State) :
  SingleAgent.next_node graph "agent" s = SingleAgent.shouldContinue s.
Proof. reflexivity. Qed.

Lemma next_node_tools (s : SingleAgent.State) :
  SingleAgent.next_node graph "tools" s = Returned "agent".
Proof. reflexivity. Qed.

Lemma action_of_agent :
  SingleAgent.action_of graph "agent" = Some (SingleAgent.callModel model).
Proof. reflexivity. Qed.

Lemma action_of_tools :
  SingleAgent.action_of graph "tools" = Some toolNode.
Proof. reflexivity. Qed.

Lemma action_of_cases (n : string) :
  (n = "agent"
   /\ SingleAgent.action_of graph n = Some (SingleAgent.callModel model))
  \/ (n = "tools" /\ SingleAgent.action_of graph n = Some toolNode)
  \/ SingleAgent.action_of graph n = None.
Proof.
  unfold SingleAgent.action_of. cbn -[String.eqb].
  destruct (String.eqb_spec "agent" n) as [<- | _].
  - left. split; reflexivity.
  - destruct (String.eqb_spec "tools" n) as [<- | _].
    + right. left. split; reflexivity.
    + right. right. reflexivity.
Qed.

Lemma step_agent (s : SingleAgent.State) (response : BaseMessage) :
  model (SingleAgent.messages s) = Returned response ->
  SingleAgent.step graph "agent" s
  = Returned
      (SingleAgent.apply_update s {| SingleAgent.u_messages := Some [response] |},
       if Nat.eqb (tool_call_count response) 0 then "__end__" else "tools").
Proof.
  intros Hmodel. unfold SingleAgent.step. rewrite action_of_agent.
  unfold SingleAgent.callModel. rewrite Hmodel. cbn [obind].
  rewrite next_node_agent.
  rewrite (shouldContinue_of_last _ response).
  - reflexivity.
  - simpl. unfold SingleAgent.messages_reducer. apply last_snoc.
Qed.

Lemma step_tools (s : SingleAgent.State) (u : SingleAgent.Update) :
  toolNode s = Returned u ->
  SingleAgent.step graph "tools" s
  = Returned (SingleAgent.apply_update s u, "agent").
Proof.
  intros Htool. unfold SingleAgent.step. rewrite action_of_tools.
  rewrite Htool. reflexivity.
Qed.

(** C9. In the graph of the script the only edge out of ["tools"] is the
    fixed edge to ["agent"]: the node has no conditional edge and is
    always followed by ["agent"]. Hence a transition that arrives at
    ["__end__"] is a transition of the ["agent"] node, and the last
    message of the state it leaves carries no tool call. *)
Theorem end_only_after_agent (n : string) (s s' : SingleAgent.State)
    (Hstep : SingleAgent.step graph n s = Returned (s', "__end__")) :
  SingleAgent.fixed_successors graph "tools" = ["agent"]
  /\ SingleAgent.branch_of graph "tools" = None
  /\ (forall st, SingleAgent.next_node graph "tools" st = Returned "agent")
  /\ n = "agent"
  /\ n <> "tools"
  /\ exists m : BaseMessage,
       last (SingleAgent.messages s') = Some m /\ tool_call_count m = 0.
Proof.
  split; [reflexivity |]. split; [reflexivity |].
  split; [exact next_node_tools |].
  unfold SingleAgent.step in Hstep.
  destruct (action_of_cases n) as [[-> Ha] | [[-> Ha] | Ha]]; rewrite Ha in Hstep.
  - split; [reflexivity |]. split; [discriminate |].
    apply obind_returned in Hstep as (u & _ & Hstep).
    apply obind_returned in Hstep as (n' & Hroute & Heq).
    injection Heq as <- ->.
    rewrite next_node_agent in Hroute.
    apply shouldContinue_end. exact Hroute.
  - apply obind_returned in Hstep as (u & _ & Hstep).
    rewrite next_node_tools in Hstep. discriminate Hstep.
  - discriminate Hstep.
Qed.

(** *** A graph that loops *)

Hypothesis model_requests_tool :
  forall msgs : list BaseMessage,
    exists response : BaseMessage,
      model msgs = Returned response /\ tool_call_count response <> 0.

Hypothesis toolNode_returns :
  forall s : SingleAgent.State,
    exists u : SingleAgent.Update, toolNode s = Returned u.

Lemma loop_step (n : string) (s : SingleAgent.State) :
  n = "agent" \/ n = "tools" ->
  exists (s' : SingleAgent.State) (n' : string),
    SingleAgent.step graph n s = Returned (s', n')
    /\ (n' = "agent" \/ n' = "tools").
Proof.
  intros [-> | ->].
  - destruct (model_requests_tool (SingleAgent.messages s)) as (r & Hr & Hc).
    eexists _, _. rewrite (step_agent s r Hr).
    apply Nat.eqb_neq in Hc. rewrite Hc. split; [reflexivity | right; reflexivity].
  - destruct (toolNode_returns s) as (u & Hu).
    eexists _, _. rewrite (step_tools s u Hu).
    split; [reflexivity | left; reflexivity].
Qed.

Lemma loop_not_end (n : string) :
  n = "agent" \/ n = "tools" -> String.eqb n "__end__" = false.
Proof. intros [-> | ->]; reflexivity. Qed.

Lemma loop_run_from (limit : nat) :
  forall (n : string) (s : SingleAgent.State) (taken : nat),
    n = "agent" \/ n = "tools" ->
    exists (n' : string) (s' : SingleAgent.State),
      SingleAgent.after_steps limit graph n s = Returned (n', s')
      /\ (n' = "agent" \/ n' = "tools")
      /\ SingleAgent.run_from limit graph n s taken
         = SingleAgent.StepLimitExceeded s' (taken + limit).
Proof.
  induction limit as [| limit IH]; intros n s taken Hn.
  - exists n, s. simpl. rewrite (loop_not_end n Hn), Nat.add_0_r.
    split; [reflexivity | split; [exact Hn | reflexivity]].
  - destruct (loop_step n s Hn) as (s1 & n1 & Hstep & Hn1).
    destruct (IH n1 s1 (S taken) Hn1) as (n' & s' & Hafter & Hn' & Hrun).
    exists n', s'. simpl. rewrite (loop_not_end n Hn), Hstep. simpl.
    split; [exact Hafter | split; [exact Hn' |]].
    rewrite Hrun. f_equal. lia.
Qed.

(** C6. With a maximum step count [N], a run of the graph whose agent
    requests a tool on every call and whose tool node always returns
    ends in [StepLimitExceeded] after exactly [N] steps, with the state
    as merged by those [N] steps; with [N = 1] that state is the input
    followed by the agent's first response. *)
Theorem step_limit_exceeded (N : nat) (input : SingleAgent.Update) :
  (exists (n : string) (s : SingleAgent.State),
      SingleAgent.after_steps N graph "agent" (SingleAgent.initial_state input)
      = Returned (n, s)
      /\ SingleAgent.run N graph input = SingleAgent.StepLimitExceeded s N)
  /\ (exists response : BaseMessage,
        model (SingleAgent.messages (SingleAgent.initial_state input))
        = Returned response
        /\ SingleAgent.run 1 graph input
           = SingleAgent.StepLimitExceeded
               (SingleAgent.apply_update (SingleAgent.initial_state input)
                  {| SingleAgent.u_messages := Some [response] |})
               1).
Proof.
  split.
  - destruct (loop_run_from N "agent" (SingleAgent.initial_state input) 0)
      as (n & s & Hafter & _ & Hrun); [left; reflexivity |].
    exists n, s. split; [exact Hafter |].
    unfold SingleAgent.run. rewrite next_node_start. exact Hrun.
  - destruct (model_requests_tool
                (SingleAgent.messages (SingleAgent.initial_state input)))
      as (r & Hr & Hc).
    exists r. split; [exact Hr |].
    unfold SingleAgent.run. rewrite next_node_start.
    simpl SingleAgent.run_from. rewrite (step_agent _ r Hr).
    apply Nat.eqb_neq in Hc. rewrite Hc. reflexivity.
Qed.

End GraphFacts.

Lemma end_only_after_agent_witness :
  SingleAgent.fixed_successors
    (SingleAgent.graph Stubs.echo_model Stubs.result_toolNode) "tools"
  = ["agent"]
  /\ SingleAgent.branch_of
       (SingleAgent.graph Stubs.echo_model Stubs.result_toolNode) "tools"
     = None
  /\ (forall st,
        SingleAgent.next_node
          (SingleAgent.graph Stubs.echo_model Stubs.result_toolNode) "tools" st
        = Returned "agent")
  /\ "agent" = "agent"
  /\ "agent" <> "tools"
  /\ exists m : BaseMessage,
       last (SingleAgent.messages
               {| SingleAgent.messages :=
                    [HumanMessage_of_text "What is LangGraph??";
                     Stubs.echo_response] |})
       = Some m
       /\ tool_call_count m = 0.
Proof.
  apply (end_only_after_agent Stubs.echo_model Stubs.result_toolNode "agent"
           (SingleAgent.initial_state SingleAgent.getFinalState_input)).
  reflexivity.
Defined.

Lemma looping_model_requests_tool :
  forall msgs : list BaseMessage,
    exists response : BaseMessage,
      Stubs.looping_model msgs = Returned response
      /\ tool_call_count response <> 0.
Proof.
  intros msgs. exists Stubs.tool_request. split; [reflexivity | discriminate].
Defined.

Lemma result_toolNode_returns :
  forall s : SingleAgent.State,
    exists u : SingleAgent.Update, Stubs.result_toolNode s = Returned u.
Proof.
  intros s. eexists. reflexivity.
Defined.

Lemma step_limit_exceeded_witness :
  (exists (n : string) (s : SingleAgent.State),
      SingleAgent.after_steps 1
        (SingleAgent.graph Stubs.looping_model Stubs.result_toolNode) "agent"
        (SingleAgent.initial_state SingleAgent.getFinalState_input)
      = Returned (n, s)
      /\ SingleAgent.run 1
           (SingleAgent.graph Stubs.looping_model Stubs.result_toolNode)
           SingleAgent.getFinalState_input
         = SingleAgent.StepLimitExceeded s 1)
  /\ (exists response : BaseMessage,
        Stubs.looping_model
          (SingleAgent.messages
             (SingleAgent.initial_state SingleAgent.getFinalState_input))
        = Returned response
        /\ SingleAgent.run 1
             (SingleAgent.graph Stubs.looping_model Stubs.result_toolNode)
             SingleAgent.getFinalState_input
           = SingleAgent.StepLimitExceeded
               (SingleAgent.apply_update
                  (SingleAgent.initial_state SingleAgent.getFinalState_input)
                  {| SingleAgent.u_messages := Some [response] |})
               1).
Proof.
  exact (step_limit_exceeded Stubs.looping_model Stubs.result_toolNode
           looping_model_requests_tool result_toolNode_returns
           1 SingleAgent.getFinalState_input).
Defined.

(** The scenario with limit 1, evaluated: one agent step, then the
    limit. *)
Example run_limit_one :
  SingleAgent.run 1
    (SingleAgent.graph Stubs.looping_model Stubs.result_toolNode)
    SingleAgent.getFinalState_input
  = SingleAgent.StepLimitExceeded
      {| SingleAgent.messages :=
           [HumanMessage_of_text "What is LangGraph??"; Stubs.tool_request] |}
      1.
Proof. reflexivity. Qed.

(** A run whose model answers without a tool call ends after one
    step, whatever the limit above it. *)
Example run_finishes :
  SingleAgent.run 5
    (SingleAgent.graph Stubs.echo_model Stubs.result_toolNode)
    SingleAgent.getFinalState_input
  = SingleAgent.Finished
      {| SingleAgent.messages :=
           [HumanMessage_of_text "What is LangGraph??"; Stubs.echo_response] |}.
Proof. reflexivity. Qed.

(** ** The chart tool *)

Section ChartFacts.

Variable num : Type.
Variable lit : Q -> num.
Variable nadd : num -> num -> num.
Variable nsub : num -> num -> num.
Variable ndiv : num -> num -> num.
Variable num_toString : num -> string.
Variable scaleBand : list string -> num * num -> num -> MultiAgent.BandScale num.
Variable scaleLinear : num * num -> num * num -> MultiAgent.LinearScale num.
Variable d3_max : list num -> option num.
Variable Canvas : Type.
Variable Buffer : Type.
Variable Display : Type.
Variable createCanvas : num -> num -> Outcome Canvas.
Variable ctx_call : MultiAgent.CanvasCall num -> Canvas -> Outcome Canvas.
Variable toBuffer : Canvas -> Outcome Buffer.
Variable display_png : Buffer -> Display -> Outcome Display.

Local Abbreviation chartTool :=
  (MultiAgent.chartTool num lit nadd nsub ndiv num_toString scaleBand
     scaleLinear d3_max Canvas Buffer Display createCanvas ctx_call toBuffer
     display_png).

Lemma colorPalette_in_range (idx : nat) :
  is_Some (MultiAgent.colorPalette !! (idx mod length MultiAgent.colorPalette)).
Proof.
  apply lookup_lt_is_Some. apply Nat.mod_upper_bound. discriminate.
Qed.

(** The handler does run to completion when the canvas and the display
    do not throw. *)

Hypothesis createCanvas_returns :
  forall w h : num, exists canvas : Canvas, createCanvas w h = Returned canvas.
Hypothesis ctx_call_returns :
  forall (c : MultiAgent.CanvasCall num) (canvas : Canvas),
    exists canvas' : Canvas, ctx_call c canvas = Returned canvas'.
Hypothesis toBuffer_returns :
  forall canvas : Canvas, exists buffer : Buffer, toBuffer canvas = Returned buffer.
Hypothesis display_png_returns :
  forall (buffer : Buffer) (display : Display),
    exists display' : Display, display_png buffer display = Returned display'.

Lemma ctx_calls_returns (calls : list (MultiAgent.CanvasCall num)) :
  forall canvas : Canvas,
    exists canvas' : Canvas,
      MultiAgent.ctx_calls num Canvas ctx_call calls canvas = Returned canvas'.
Proof.
  induction calls as [| c calls IH]; intros canvas; simpl.
  - exists canvas. reflexivity.
  - destruct (ctx_call_returns c canvas) as (canvas1 & ->). simpl. apply IH.
Qed.

Lemma forEach_returns {A : Type} (body : A -> nat -> Canvas -> Outcome Canvas)
    (array : list A) :
  (forall d idx canvas, exists canvas', body d idx canvas = Returned canvas') ->
  forall (idx : nat) (canvas : Canvas),
    exists canvas' : Canvas,
      MultiAgent.forEach Canvas body array idx canvas = Returned canvas'.
Proof.
  intros Hbody. induction array as [| d array IH]; intros idx canvas; simpl.
  - exists canvas. reflexivity.
  - destruct (Hbody d idx canvas) as (canvas1 & ->). simpl. apply IH.
Qed.

Lemma chartTool_completes (data : list (MultiAgent.DataPoint num))
    (display : Display) :
  exists display' : Display,
    MultiAgent.tool_func num Display chartTool data display
    = Returned ("Chart has been generated and displayed to the user!", display').
Proof.
  simpl. unfold MultiAgent.chartTool_func.
  destruct (createCanvas_returns (lit 500%Q) (lit 500%Q)) as (c0 & ->).
  cbn [obind].
  edestruct (forEach_returns
               (A := MultiAgent.DataPoint num)) as (c1 & ->);
    [intros d idx canvas; apply ctx_calls_returns |].
  cbn [obind].
  edestruct ctx_calls_returns as (c2 & ->). cbn [obind].
  edestruct (forEach_returns (A := string)) as (c3 & ->);
    [intros d idx canvas; apply ctx_calls_returns |].
  cbn [obind].
  edestruct ctx_calls_returns as (c4 & ->). cbn [obind].
  edestruct (forEach_returns (A := num)) as (c5 & ->);
    [intros d idx canvas; apply ctx_calls_returns |].
  cbn [obind].
  destruct (toBuffer_returns c5) as (buffer & ->). cbn [obind].
  destruct (display_png_returns buffer display) as (display' & ->).
  cbn [obind]. exists display'. reflexivity.
Qed.

End ChartFacts.

Example chart_empty_data :
  exists shown : list Stubs.recording_canvas,
    MultiAgent.tool_func Q _ Stubs.chart [] []
    = Returned ("Chart has been generated and displayed to the user!", shown).
Proof. eexists. reflexivity. Qed.

(** * Further properties *)

(** ** The chart handler as a list of calls *)

Section ChartCallFacts.

Variable num : Type.
Variable lit : Q -> num.
Variable nadd : num -> num -> num.
Variable nsub : num -> num -> num.
Variable ndiv : num -> num -> num.
Variable num_toString : num -> string.
Variable scaleBand : list string -> num * num -> num -> MultiAgent.BandScale num.
Variable scaleLinear : num * num -> num * num -> MultiAgent.LinearScale num.
Variable d3_max : list num -> option num.

Local Abbreviation x_scale := (ChartCalls.x_scale num lit nsub scaleBand).
Local Abbreviation y_scale := (ChartCalls.y_scale num lit nsub scaleLinear d3_max).
Local Abbreviation bar_calls :=
  (ChartCalls.bar_calls num lit nsub scaleBand scaleLinear d3_max).
Local Abbreviation label_calls :=
  (ChartCalls.label_calls num lit nadd nsub ndiv scaleBand).
Local Abbreviation tick_calls :=
  (ChartCalls.tick_calls num lit nsub num_toString scaleLinear d3_max).
Local Abbreviation chart_calls :=
  (ChartCalls.chart_calls num lit nadd nsub ndiv num_toString scaleBand
     scaleLinear d3_max).

Section AnyCanvas.

Variable Canvas : Type.
Variable Buffer : Type.
Variable Display : Type.
Variable createCanvas : num -> num -> Outcome Canvas.
Variable ctx_call : MultiAgent.CanvasCall num -> Canvas -> Outcome Canvas.
Variable toBuffer : Canvas -> Outcome Buffer.
Variable display_png : Buffer -> Display -> Outcome Display.

Local Abbreviation ctx_calls := (MultiAgent.ctx_calls num Canvas ctx_call).
Local Abbreviation forEach := (MultiAgent.forEach Canvas).

Lemma ctx_calls_app (a b : list (MultiAgent.CanvasCall num)) :
  forall canvas : Canvas,
    ctx_calls (a ++ b) canvas = obind (ctx_calls a canvas) (ctx_calls b).
Proof.
  induction a as [| c a IH]; intros canvas; simpl; [reflexivity |].
  destruct (ctx_call c canvas) as [canvas' | e]; simpl; [apply IH | reflexivity].
Qed.

Lemma forEach_as_calls {A : Type}
    (body : A -> nat -> list (MultiAgent.CanvasCall num)) (array : list A) :
  forall (idx : nat) (canvas : Canvas),
    forEach (fun d i => ctx_calls (body d i)) array idx canvas
    = ctx_calls (ChartCalls.forEach_calls num body array idx) canvas.
Proof.
  induction array as [| d array IH]; intros idx canvas; simpl; [reflexivity |].
  rewrite ctx_calls_app.
  destruct (ctx_calls (body d idx) canvas) as [canvas' | e]; simpl;
    [apply IH | reflexivity].
Qed.

(** C10. Whenever the chart tool's handler runs to completion, on any
    data array, it returns the sentence ["Chart has been generated and
    displayed to the user!"], whatever the data; and the chart reaches
    the user through the display alone: the canvas the handler created
    took every call of [chart_calls data], in order, and the buffer of
    that drawn canvas is what the display was given. *)
Theorem chartTool_returns_sentence
    (data : list (MultiAgent.DataPoint num)) (display display' : Display)
    (r : string)
    (Hdone : MultiAgent.tool_func num Display
               (MultiAgent.chartTool num lit nadd nsub ndiv num_toString
                  scaleBand scaleLinear d3_max Canvas Buffer Display
                  createCanvas ctx_call toBuffer display_png)
               data display
             = Returned (r, display')) :
  r = "Chart has been generated and displayed to the user!"
  /\ exists (blank drawn : Canvas) (buffer : Buffer),
       createCanvas (lit 500%Q) (lit 500%Q) = Returned blank
       /\ ctx_calls (chart_calls data) blank = Returned drawn
       /\ toBuffer drawn = Returned buffer
       /\ display_png buffer display = Returned display'.
Proof.
  simpl in Hdone. unfold MultiAgent.chartTool_func in Hdone. cbv zeta in Hdone.
  apply obind_returned in Hdone as (c0 & Hcreate & Hdone).
  apply obind_returned in Hdone as (c1 & Hbars & Hdone).
  apply obind_returned in Hdone as (c2 & Hxaxis & Hdone).
  apply obind_returned in Hdone as (c3 & Hlabels & Hdone).
  apply obind_returned in Hdone as (c4 & Hyaxis & Hdone).
  apply obind_returned in Hdone as (c5 & Hticks & Hdone).
  apply obind_returned in Hdone as (buffer & Hbuffer & Hdone).
  apply obind_returned in Hdone as (shown & Hshown & Hdone).
  injection Hdone as <- <-.
  split; [reflexivity |].
  exists c0, c5, buffer.
  split; [exact Hcreate |]. split; [| split; assumption].
  change (forEach (fun d i => ctx_calls (bar_calls data d i)) data 0 c0
          = Returned c1) in Hbars.
  change (ctx_calls (ChartCalls.x_axis_calls num lit nsub) c1 = Returned c2)
    in Hxaxis.
  change (forEach (fun d i => ctx_calls (label_calls data d))
            (MultiAgent.band_domain num (x_scale data)) 0 c2
          = Returned c3) in Hlabels.
  change (ctx_calls (ChartCalls.y_axis_calls num lit nsub) c3 = Returned c4)
    in Hyaxis.
  change (forEach (fun d i => ctx_calls (tick_calls data d))
            (MultiAgent.ticks num (y_scale data)) 0 c4
          = Returned c5) in Hticks.
  rewrite (forEach_as_calls (bar_calls data)) in Hbars.
  rewrite (forEach_as_calls (fun d _ => label_calls data d)) in Hlabels.
  rewrite (forEach_as_calls (fun d _ => tick_calls data d)) in Hticks.
  unfold ChartCalls.chart_calls.
  rewrite ctx_calls_app, Hbars. cbn [obind].
  rewrite ctx_calls_app, Hxaxis. cbn [obind].
  rewrite ctx_calls_app, Hlabels. cbn [obind].
  rewrite ctx_calls_app, Hyaxis. cbn [obind].
  exact Hticks.
Qed.

(** X1. Whatever the canvas does with them, the handler makes the calls
    of [chart_calls], in that order, on the canvas it created, stops at
    the first call that throws, and only after the last call hands the
    canvas's buffer to the display and returns its sentence. *)
Theorem chartTool_makes_chart_calls
    (data : list (MultiAgent.DataPoint num)) (display : Display) :
  MultiAgent.tool_func num Display
    (MultiAgent.chartTool num lit nadd nsub ndiv num_toString scaleBand
       scaleLinear d3_max Canvas Buffer Display createCanvas ctx_call toBuffer
       display_png)
    data display
  = await canvas <- createCanvas (lit 500%Q) (lit 500%Q);
    await canvas <- ctx_calls (chart_calls data) canvas;
    await buffer <- toBuffer canvas;
    await display <- display_png buffer display;
    Returned ("Chart has been generated and displayed to the user!", display).
Proof.
  change (MultiAgent.tool_func num Display _ data display)
    with (await canvas <- createCanvas (lit 500%Q) (lit 500%Q);
          await canvas <-
            forEach (fun d i => ctx_calls (bar_calls data d i)) data 0 canvas;
          await canvas <- ctx_calls (ChartCalls.x_axis_calls num lit nsub) canvas;
          await canvas <-
            forEach (fun d i => ctx_calls (label_calls data d))
              (MultiAgent.band_domain num (x_scale data)) 0 canvas;
          await canvas <- ctx_calls (ChartCalls.y_axis_calls num lit nsub) canvas;
          await canvas <-
            forEach (fun d i => ctx_calls (tick_calls data d))
              (MultiAgent.ticks num (y_scale data)) 0 canvas;
          await buffer <- toBuffer canvas;
          await display <- display_png buffer display;
          Returned
            ("Chart has been generated and displayed to the user!", display)).
  destruct (createCanvas (lit 500%Q) (lit 500%Q)) as [c0 | e];
    [cbn [obind] | reflexivity].
  unfold ChartCalls.chart_calls.
  rewrite (forEach_as_calls (bar_calls data) data 0 c0), ctx_calls_app.
  destruct (ctx_calls (ChartCalls.forEach_calls num (bar_calls data) data 0) c0)
    as [c1 | e]; [cbn [obind] | reflexivity].
  rewrite ctx_calls_app.
  destruct (ctx_calls (ChartCalls.x_axis_calls num lit nsub) c1)
    as [c2 | e]; [cbn [obind] | reflexivity].
  rewrite (forEach_as_calls (fun d _ => label_calls data d)
             (MultiAgent.band_domain num (x_scale data)) 0 c2), ctx_calls_app.
  destruct (ctx_calls
              (ChartCalls.forEach_calls num (fun d _ => label_calls data d)
                 (MultiAgent.band_domain num (x_scale data)) 0) c2)
    as [c3 | e]; [cbn [obind] | reflexivity].
  rewrite ctx_calls_app.
  destruct (ctx_calls (ChartCalls.y_axis_calls num lit nsub) c3)
    as [c4 | e]; [cbn [obind] | reflexivity].
  rewrite (forEach_as_calls (fun d _ => tick_calls data d)
             (MultiAgent.ticks num (y_scale data)) 0 c4).
  reflexivity.
Qed.

End AnyCanvas.

Lemma forEach_calls_count {A : Type} (p : MultiAgent.CanvasCall num -> bool)
    (body : A -> nat -> list (MultiAgent.CanvasCall num)) (k : nat) :
  (forall d i, length (List.filter p (body d i)) = k) ->
  forall (array : list A) (idx : nat),
    length (List.filter p (ChartCalls.forEach_calls num body array idx))
    = k * length array.
Proof.
  intros Hbody. induction array as [| d array IH]; intros idx; simpl.
  - lia.
  - rewrite List.filter_app, length_app, Hbody, IH. lia.
Qed.

Lemma forEach_calls_length {A : Type}
    (body : A -> nat -> list (MultiAgent.CanvasCall num)) (k : nat) :
  (forall d i, length (body d i) = k) ->
  forall (array : list A) (idx : nat),
    length (ChartCalls.forEach_calls num body array idx) = k * length array.
Proof.
  intros Hbody. induction array as [| d array IH]; intros idx; simpl.
  - lia.
  - rewrite length_app, Hbody, IH. lia.
Qed.

Lemma bars_lookup (data : list (MultiAgent.DataPoint num))
    (array : list (MultiAgent.DataPoint num)) :
  forall (idx0 j : nat) (d : MultiAgent.DataPoint num),
    array !! j = Some d ->
    ChartCalls.forEach_calls num (bar_calls data) array idx0 !! (2 * j)
    = bar_calls data d (idx0 + j) !! 0
    /\ ChartCalls.forEach_calls num (bar_calls data) array idx0 !! (2 * j + 1)
       = bar_calls data d (idx0 + j) !! 1.
Proof.
  induction array as [| a array IH]; intros idx0 j d Hj; [discriminate Hj |].
  destruct j as [| j].
  - injection Hj as ->. rewrite Nat.add_0_r. split; reflexivity.
  - replace (2 * S j) with (S (S (2 * j))) by lia.
    replace (idx0 + S j) with (S idx0 + j) by lia.
    exact (IH (S idx0) j d Hj).
Qed.

(** X2. The bar of the data point of index [idx] is drawn by the calls
    of positions [2 * idx] and [2 * idx + 1]: its fill colour is the
    palette's entry [idx mod 10], which always exists, and its rectangle
    is that of the point's label and value. Bars ten apart share their
    colour. *)
Theorem chart_bar_calls (data : list (MultiAgent.DataPoint num)) (idx : nat)
    (d : MultiAgent.DataPoint num) (Hd : data !! idx = Some d) :
  (exists colour : string,
      MultiAgent.colorPalette !! (idx mod 10) = Some colour
      /\ chart_calls data !! (2 * idx)
         = Some (MultiAgent.set_fillStyle num colour)
      /\ (forall d' : MultiAgent.DataPoint num,
            data !! (idx + 10) = Some d' ->
            chart_calls data !! (2 * (idx + 10))
            = Some (MultiAgent.set_fillStyle num colour)))
  /\ chart_calls data !! (2 * idx + 1)
     = Some
         (MultiAgent.fillRect num
            (default (lit 0%Q)
               (MultiAgent.band_at num (x_scale data) (MultiAgent.label num d)))
            (MultiAgent.linear_at num (y_scale data) (MultiAgent.value num d))
            (MultiAgent.bandwidth num (x_scale data))
            (nsub (nsub (lit 500%Q) (lit 30%Q))
               (MultiAgent.linear_at num (y_scale data)
                  (MultiAgent.value num d)))).
Proof.
  assert (Hbar : forall j e, data !! j = Some e ->
            chart_calls data !! (2 * j) = bar_calls data e j !! 0
            /\ chart_calls data !! (2 * j + 1) = bar_calls data e j !! 1).
  { intros j e He.
    destruct (bars_lookup data data 0 j e He) as [H0 H1].
    unfold ChartCalls.chart_calls. split.
    - apply lookup_app_l_Some. rewrite H0. reflexivity.
    - apply lookup_app_l_Some. rewrite H1. reflexivity. }
  destruct (colorPalette_in_range idx) as [colour Hcolour].
  change (length MultiAgent.colorPalette) with 10 in Hcolour.
  split.
  - exists colour. split; [exact Hcolour |]. split.
    + rewrite (proj1 (Hbar idx d Hd)).
      change (bar_calls data d idx !! 0)
        with (Some (MultiAgent.set_fillStyle num
                      (default "" (MultiAgent.colorPalette !! (idx mod 10))))).
      rewrite Hcolour. reflexivity.
    + intros d' Hd'. rewrite (proj1 (Hbar (idx + 10) d' Hd')).
      change (bar_calls data d' (idx + 10) !! 0)
        with (Some (MultiAgent.set_fillStyle num
                      (default ""
                         (MultiAgent.colorPalette !! ((idx + 10) mod 10))))).
      replace ((idx + 10) mod 10) with (idx mod 10)
        by (rewrite <- (Nat.Div0.mod_add idx 1 10); f_equal; lia).
      rewrite Hcolour. reflexivity.
  - rewrite (proj2 (Hbar idx d Hd)). reflexivity.
Qed.

(** X3. The handler draws one rectangle per data point (none for the
    empty array), writes one text per entry of the band scale's domain
    and one per tick of the linear scale, and strokes the two axes and
    each tick mark. *)
Theorem chart_calls_counts (data : list (MultiAgent.DataPoint num)) :
  length (List.filter ChartCalls.is_fillRect (chart_calls data)) = length data
  /\ length (List.filter ChartCalls.is_fillText (chart_calls data))
     = length (MultiAgent.band_domain num (x_scale data))
       + length (MultiAgent.ticks num (y_scale data))
  /\ length (List.filter ChartCalls.is_stroke (chart_calls data))
     = 2 + length (MultiAgent.ticks num (y_scale data))
  /\ length (chart_calls data)
     = 2 * length data
       + length (MultiAgent.band_domain num (x_scale data))
       + 4 * length (MultiAgent.ticks num (y_scale data))
       + 13.
Proof.
  unfold ChartCalls.chart_calls.
  repeat split; rewrite ?List.filter_app, !length_app.
  - rewrite (forEach_calls_count ChartCalls.is_fillRect (bar_calls data) 1),
      (forEach_calls_count ChartCalls.is_fillRect
         (fun d _ => label_calls data d) 0),
      (forEach_calls_count ChartCalls.is_fillRect
         (fun d _ => tick_calls data d) 0); try reflexivity.
    simpl. lia.
  - rewrite (forEach_calls_count ChartCalls.is_fillText (bar_calls data) 0),
      (forEach_calls_count ChartCalls.is_fillText
         (fun d _ => label_calls data d) 1),
      (forEach_calls_count ChartCalls.is_fillText
         (fun d _ => tick_calls data d) 1); try reflexivity.
    simpl. lia.
  - rewrite (forEach_calls_count ChartCalls.is_stroke (bar_calls data) 0),
      (forEach_calls_count ChartCalls.is_stroke
         (fun d _ => label_calls data d) 0),
      (forEach_calls_count ChartCalls.is_stroke
         (fun d _ => tick_calls data d) 1); try reflexivity.
    simpl. lia.
  - rewrite (forEach_calls_length (bar_calls data) 2),
      (forEach_calls_length (fun d _ => label_calls data d) 1),
      (forEach_calls_length (fun d _ => tick_calls data d) 4); try reflexivity.
    simpl. lia.
Qed.

End ChartCallFacts.

Lemma chartTool_returns_sentence_witness :
  exists (r : string) (shown : list Stubs.recording_canvas),
    MultiAgent.tool_func Q _ Stubs.chart Stubs.two_bars [] = Returned (r, shown)
    /\ r = "Chart has been generated and displayed to the user!"
    /\ exists (blank drawn buffer : Stubs.recording_canvas),
         Returned [] = Returned blank
         /\ MultiAgent.ctx_calls Q Stubs.recording_canvas
              (fun c canvas => Returned (canvas ++ [c]))
              (ChartCalls.chart_calls Q (fun q => q) Qplus Qminus Qdiv
                 (fun _ => "0") Stubs.band Stubs.linear
                 (fun l => match l with [] => None | v :: _ => Some v end)
                 Stubs.two_bars)
              blank
            = Returned drawn
         /\ Returned drawn = Returned buffer
         /\ Returned ([] ++ [buffer]) = Returned shown.
Proof.
  eexists _, _. split.
  - vm_compute. reflexivity.
  - exact (chartTool_returns_sentence Q (fun q => q) Qplus Qminus Qdiv
             (fun _ => "0") Stubs.band Stubs.linear
             (fun l => match l with [] => None | v :: _ => Some v end)
             Stubs.recording_canvas Stubs.recording_canvas
             (list Stubs.recording_canvas)
             (fun _ _ => Returned [])
             (fun c canvas => Returned (canvas ++ [c]))
             (fun canvas => Returned canvas)
             (fun buffer display => Returned (display ++ [buffer]))
             Stubs.two_bars [] _ _ eq_refl).
Defined.

Lemma chart_bar_calls_witness :
  (exists colour : string,
      MultiAgent.colorPalette !! (1 mod 10) = Some colour
      /\ ChartCalls.chart_calls Q (fun q => q) Qplus Qminus Qdiv (fun _ => "0")
           Stubs.band Stubs.linear
           (fun l => match l with [] => None | v :: _ => Some v end)
           Stubs.two_bars !! (2 * 1)
         = Some (MultiAgent.set_fillStyle Q colour)
      /\ (forall d' : MultiAgent.DataPoint Q,
            Stubs.two_bars !! (1 + 10) = Some d' ->
            ChartCalls.chart_calls Q (fun q => q) Qplus Qminus Qdiv
              (fun _ => "0") Stubs.band Stubs.linear
              (fun l => match l with [] => None | v :: _ => Some v end)
              Stubs.two_bars !! (2 * (1 + 10))
            = Some (MultiAgent.set_fillStyle Q colour)))
  /\ ChartCalls.chart_calls Q (fun q => q) Qplus Qminus Qdiv (fun _ => "0")
       Stubs.band Stubs.linear
       (fun l => match l with [] => None | v :: _ => Some v end)
       Stubs.two_bars !! (2 * 1 + 1)
     = Some (MultiAgent.fillRect Q 40%Q 472%Q 430%Q (Qminus (Qminus 500 30) 472)).
Proof.
  exact (chart_bar_calls Q (fun q => q) Qplus Qminus Qdiv (fun _ => "0")
           Stubs.band Stubs.linear
           (fun l => match l with [] => None | v :: _ => Some v end)
           Stubs.two_bars 1
           {| MultiAgent.label := "b"; MultiAgent.value := 2%Q |} eq_refl).
Defined.

(** ** Agent nodes, continued *)

Section AgentNodeFacts.

Context {RunnableConfig : Type}.

Lemma runAgentNode_inv (state : MultiAgent.State)
    (agent : MultiAgent.Runnable RunnableConfig) (agent_name : string)
    (config : option RunnableConfig) (u : MultiAgent.Update) :
  MultiAgent.runAgentNode state agent agent_name config = Returned u ->
  exists response : BaseMessage,
    agent state config = Returned response
    /\ u = {| MultiAgent.u_messages :=
                Some [if Nat.eqb (tool_call_count response) 0
                      then HumanMessage (with_name response agent_name)
                      else response];
              MultiAgent.u_sender := Some agent_name |}.
Proof.
  intros H. destruct (agent state config) as [response | e] eqn:Hagent.
  - exists response. split; [reflexivity |].
    rewrite (runAgentNode_returned state agent agent_name config response Hagent)
      in H.
    injection H as <-. reflexivity.
  - rewrite (runAgentNode_threw state agent agent_name config e Hagent) in H.
    discriminate H.
Qed.

(** X4. An agent node returns an update only when its model call
    returned, and the message in the update keeps the response's content
    and its number of tool invocations: turning a final answer into a
    human message changes neither, and a tool request is passed on with
    its type unchanged. *)
Theorem runAgentNode_keeps_response (state : MultiAgent.State)
    (agent : MultiAgent.Runnable RunnableConfig) (agent_name : string)
    (config : option RunnableConfig) (u : MultiAgent.Update)
    (Hnode : MultiAgent.runAgentNode state agent agent_name config = Returned u) :
  exists response m : BaseMessage,
    agent state config = Returned response
    /\ MultiAgent.u_messages u = Some [m]
    /\ content m = content response
    /\ tool_call_count m = tool_call_count response
    /\ (1 <= tool_call_count response -> m = response).
Proof.
  apply runAgentNode_inv in Hnode as (response & Hagent & ->).
  exists response. eexists. split; [exact Hagent |]. split; [reflexivity |].
  destruct (Nat.eqb_spec (tool_call_count response) 0) as [Hz | Hnz].
  - split; [reflexivity |]. split; [symmetry; exact Hz | lia].
  - split; [reflexivity |]. split; reflexivity.
Qed.

(** X5. Merging the update of an agent node appends exactly one message
    to the log, keeps every earlier message, and sets [sender] to the
    node's name; when that message is a final answer (no tool
    invocation) it is a human message named after the new [sender]. *)
Theorem agent_step_appends_one (state : MultiAgent.State)
    (agent : MultiAgent.Runnable RunnableConfig) (agent_name : string)
    (config : option RunnableConfig) (u : MultiAgent.Update)
    (Hnode : MultiAgent.runAgentNode state agent agent_name config = Returned u) :
  exists m : BaseMessage,
    MultiAgent.messages (MultiAgent.apply_update state u)
    = MultiAgent.messages state ++ [m]
    /\ length (MultiAgent.messages (MultiAgent.apply_update state u))
       = S (length (MultiAgent.messages state))
    /\ MultiAgent.sender (MultiAgent.apply_update state u) = agent_name
    /\ (tool_call_count m = 0 ->
        msg_type m = human
        /\ name m = Some (MultiAgent.sender (MultiAgent.apply_update state u))).
Proof.
  apply runAgentNode_inv in Hnode as (response & _ & ->).
  eexists. split; [reflexivity |]. split.
  - simpl. unfold MultiAgent.messages_reducer. rewrite length_app. simpl. lia.
  - split; [reflexivity |]. intros Hc.
    destruct (Nat.eqb_spec (tool_call_count response) 0) as [Hz | Hnz].
    + split; reflexivity.
    + contradiction.
Qed.

End AgentNodeFacts.

Lemma runAgentNode_keeps_response_witness :
  exists response m : BaseMessage,
    Stubs.requesting_agent MultiAgent.example_input None = Returned response
    /\ MultiAgent.u_messages
         {| MultiAgent.u_messages := Some [Stubs.tool_request];
            MultiAgent.u_sender := Some "Researcher" |}
       = Some [m]
    /\ content m = content response
    /\ tool_call_count m = tool_call_count response
    /\ (1 <= tool_call_count response -> m = response).
Proof.
  exact (runAgentNode_keeps_response MultiAgent.example_input
           Stubs.requesting_agent "Researcher" None _ eq_refl).
Defined.

Lemma agent_step_appends_one_witness :
  exists m : BaseMessage,
    MultiAgent.messages
      (MultiAgent.apply_update MultiAgent.example_input
         {| MultiAgent.u_messages :=
              Some [HumanMessage (with_name Stubs.echo_response "ChartGenerator")];
            MultiAgent.u_sender := Some "ChartGenerator" |})
    = MultiAgent.messages MultiAgent.example_input ++ [m]
    /\ length
         (MultiAgent.messages
            (MultiAgent.apply_update MultiAgent.example_input
               {| MultiAgent.u_messages :=
                    Some [HumanMessage
                            (with_name Stubs.echo_response "ChartGenerator")];
                  MultiAgent.u_sender := Some "ChartGenerator" |}))
       = S (length (MultiAgent.messages MultiAgent.example_input))
    /\ MultiAgent.sender
         (MultiAgent.apply_update MultiAgent.example_input
            {| MultiAgent.u_messages :=
                 Some [HumanMessage
                         (with_name Stubs.echo_response "ChartGenerator")];
               MultiAgent.u_sender := Some "ChartGenerator" |})
       = "ChartGenerator"
    /\ (tool_call_count m = 0 ->
        msg_type m = human
        /\ name m
           = Some
               (MultiAgent.sender
                  (MultiAgent.apply_update MultiAgent.example_input
                     {| MultiAgent.u_messages :=
                          Some [HumanMessage
                                  (with_name Stubs.echo_response "ChartGenerator")];
                        MultiAgent.u_sender := Some "ChartGenerator" |}))).
Proof.
  exact (agent_step_appends_one MultiAgent.example_input Stubs.echo_agent
           "ChartGenerator" None _ eq_refl).
Defined.

(** ** Runs of any graph *)

Lemma step_merges (g : SingleAgent.StateGraph) (n n' : string)
    (s s' : SingleAgent.State) :
  SingleAgent.step g n s = Returned (s', n') ->
  exists u : SingleAgent.Update, s' = SingleAgent.apply_update s u.
Proof.
  unfold SingleAgent.step. intros H.
  destruct (SingleAgent.action_of g n) as [action |]; [| discriminate H].
  apply obind_returned in H as (u & _ & H).
  apply obind_returned in H as (n1 & _ & H).
  injection H as <- _. exists u. reflexivity.
Qed.

Lemma apply_update_prefix (s : SingleAgent.State) (u : SingleAgent.Update) :
  SingleAgent.messages s
  `prefix_of` SingleAgent.messages (SingleAgent.apply_update s u).
Proof.
  simpl. destruct (SingleAgent.u_messages u) as [y |].
  - apply prefix_app_r. reflexivity.
  - reflexivity.
Qed.

Lemma step_prefix (g : SingleAgent.StateGraph) (n n' : string)
    (s s' : SingleAgent.State) :
  SingleAgent.step g n s = Returned (s', n') ->
  SingleAgent.messages s `prefix_of` SingleAgent.messages s'.
Proof.
  intros H. apply step_merges in H as (u & ->). apply apply_update_prefix.
Qed.

Lemma run_from_end (limit : nat) (g : SingleAgent.StateGraph)
    (s : SingleAgent.State) (taken : nat) :
  SingleAgent.run_from limit g "__end__" s taken = SingleAgent.Finished s.
Proof. destruct limit; reflexivity. Qed.

Lemma run_from_prefix (g : SingleAgent.StateGraph) (limit : nat) :
  forall (n : string) (s : SingleAgent.State) (taken : nat)
         (s' : SingleAgent.State),
    SingleAgent.run_from limit g n s taken = SingleAgent.Finished s'
    \/ (exists t, SingleAgent.run_from limit g n s taken
                  = SingleAgent.StepLimitExceeded s' t) ->
    SingleAgent.messages s `prefix_of` SingleAgent.messages s'.
Proof.
  induction limit as [| limit IH]; intros n s taken s' H; simpl in H.
  - destruct (String.eqb n "__end__").
    + destruct H as [H | [t H]]; [| discriminate H].
      injection H as <-. reflexivity.
    + destruct H as [H | [t H]]; [discriminate H |].
      injection H as <- _. reflexivity.
  - destruct (String.eqb n "__end__").
    + destruct H as [H | [t H]]; [| discriminate H].
      injection H as <-. reflexivity.
    + destruct (SingleAgent.step g n s) as [[s1 n1] | e] eqn:Hstep.
      * transitivity (SingleAgent.messages s1).
        -- exact (step_prefix g n n1 s s1 Hstep).
        -- exact (IH n1 s1 (S taken) s' H).
      * destruct H as [H | [t H]]; discriminate H.
Qed.

(** X6. Whatever the graph and its nodes do, a run never loses history:
    the state it ends with, finished or stopped at the step limit,
    begins with the messages of the input, in their order. *)
Theorem run_keeps_history (g : SingleAgent.StateGraph) (limit : nat)
    (input : SingleAgent.Update) (s : SingleAgent.State)
    (Hrun : SingleAgent.run limit g input = SingleAgent.Finished s
            \/ exists t, SingleAgent.run limit g input
                         = SingleAgent.StepLimitExceeded s t) :
  default [] (SingleAgent.u_messages input)
  `prefix_of` SingleAgent.messages s.
Proof.
  unfold SingleAgent.run in Hrun.
  destruct (SingleAgent.next_node g "__start__" (SingleAgent.initial_state input))
    as [n | e].
  - apply run_from_prefix in Hrun.
    replace (default [] (SingleAgent.u_messages input))
      with (SingleAgent.messages (SingleAgent.initial_state input)).
    + exact Hrun.
    + unfold SingleAgent.initial_state. simpl.
      destruct (SingleAgent.u_messages input); reflexivity.
  - destruct Hrun as [H | [t H]]; discriminate H.
Qed.

(** ** Runs of the script's graph *)

Section GraphRunFacts.

Variable model : list BaseMessage -> Outcome BaseMessage.
Variable toolNode : SingleAgent.State -> Outcome SingleAgent.Update.

Local Abbreviation graph := (SingleAgent.graph model toolNode).

Lemma step_agent_threw (s : SingleAgent.State) (e : Exn) :
  model (SingleAgent.messages s) = Threw e ->
  SingleAgent.step graph "agent" s = Threw e.
Proof.
  intros H. unfold SingleAgent.step. rewrite action_of_agent.
  unfold SingleAgent.callModel. rewrite H. reflexivity.
Qed.

Lemma step_tools_threw (s : SingleAgent.State) (e : Exn) :
  toolNode s = Threw e ->
  SingleAgent.step graph "tools" s = Threw e.
Proof.
  intros H. unfold SingleAgent.step. rewrite action_of_tools, H. reflexivity.
Qed.

(** X7. Routing after the model node never throws: when [callModel]
    returns an update, the model returned a response, the merged state
    is the old log followed by that response, and [shouldContinue] on it
    returns ["tools"] when the response requests a tool and ["__end__"]
    when it does not. *)
Theorem callModel_then_route (s : SingleAgent.State) (u : SingleAgent.Update)
    (Hcall : SingleAgent.callModel model s = Returned u) :
  exists response : BaseMessage,
    model (SingleAgent.messages s) = Returned response
    /\ SingleAgent.messages (SingleAgent.apply_update s u)
       = SingleAgent.messages s ++ [response]
    /\ SingleAgent.shouldContinue (SingleAgent.apply_update s u)
       = Returned (if Nat.eqb (tool_call_count response) 0
                   then "__end__" else "tools").
Proof.
  unfold SingleAgent.callModel in Hcall.
  apply obind_returned in Hcall as (response & Hmodel & Hu).
  injection Hu as <-. exists response.
  split; [exact Hmodel |]. split; [reflexivity |].
  apply shouldContinue_of_last. simpl.
  unfold SingleAgent.messages_reducer. apply last_snoc.
Qed.

Lemma run_from_finished (limit : nat) :
  forall (n : string) (s : SingleAgent.State) (taken : nat)
         (s' : SingleAgent.State),
    n = "agent" \/ n = "tools" ->
    SingleAgent.run_from limit graph n s taken = SingleAgent.Finished s' ->
    exists (s1 : SingleAgent.State) (response : BaseMessage),
      SingleAgent.messages s `prefix_of` SingleAgent.messages s1
      /\ model (SingleAgent.messages s1) = Returned response
      /\ tool_call_count response = 0
      /\ s' = SingleAgent.apply_update s1
                {| SingleAgent.u_messages := Some [response] |}.
Proof.
  induction limit as [| limit IH]; intros n s taken s' Hn H.
  - simpl in H. rewrite (loop_not_end n Hn) in H. discriminate H.
  - simpl in H. rewrite (loop_not_end n Hn) in H.
    destruct Hn as [-> | ->].
    + destruct (model (SingleAgent.messages s)) as [r | e] eqn:Hmodel.
      * rewrite (step_agent model toolNode s r Hmodel) in H.
        destruct (Nat.eqb_spec (tool_call_count r) 0) as [Hz | Hnz].
        -- rewrite run_from_end in H. injection H as <-.
           exists s, r. repeat split; [reflexivity | exact Hmodel | exact Hz].
        -- apply IH in H as (s1 & r1 & Hpre & Hm1 & Hc1 & ->);
             [| right; reflexivity].
           exists s1, r1. repeat split; [| exact Hm1 | exact Hc1].
           etransitivity; [| exact Hpre].
           apply apply_update_prefix.
      * rewrite (step_agent_threw s e Hmodel) in H. discriminate H.
    + destruct (toolNode s) as [u | e] eqn:Htool.
      * rewrite (step_tools model toolNode s u Htool) in H.
        apply IH in H as (s1 & r1 & Hpre & Hm1 & Hc1 & ->);
          [| left; reflexivity].
        exists s1, r1. repeat split; [| exact Hm1 | exact Hc1].
        etransitivity; [| exact Hpre].
        apply apply_update_prefix.
      * rewrite (step_tools_threw s e Htool) in H. discriminate H.
Qed.

(** X8. When a run of the script's graph finishes, its final state is
    an earlier state of the run followed by one more message: the
    response the model gave on that state's log, which requests no tool.
    So the final log is never empty and ends with the model's answer. *)
Theorem finished_run_ends_with_answer (limit : nat)
    (input : SingleAgent.Update) (s : SingleAgent.State)
    (Hrun : SingleAgent.run limit graph input = SingleAgent.Finished s) :
  exists (before : list BaseMessage) (response : BaseMessage),
    default [] (SingleAgent.u_messages input) `prefix_of` before
    /\ model before = Returned response
    /\ tool_call_count response = 0
    /\ SingleAgent.messages s = before ++ [response]
    /\ last (SingleAgent.messages s) = Some response.
Proof.
  unfold SingleAgent.run in Hrun. rewrite next_node_start in Hrun.
  apply run_from_finished in Hrun as (s1 & r & Hpre & Hmodel & Hc & ->);
    [| left; reflexivity].
  exists (SingleAgent.messages s1), r.
  split.
  - replace (default [] (SingleAgent.u_messages input))
      with (SingleAgent.messages (SingleAgent.initial_state input));
      [exact Hpre |].
    unfold SingleAgent.initial_state. simpl.
    destruct (SingleAgent.u_messages input); reflexivity.
  - split; [exact Hmodel |]. split; [exact Hc |].
    split; [reflexivity |]. simpl. unfold SingleAgent.messages_reducer.
    apply last_snoc.
Qed.

Lemma after_steps_agent_tools (k : nat) (s : SingleAgent.State)
    (response : BaseMessage) :
  model (SingleAgent.messages s) = Returned response ->
  Nat.eqb (tool_call_count response) 0 = false ->
  SingleAgent.after_steps (S k) graph "agent" s
  = SingleAgent.after_steps k graph "tools"
      (SingleAgent.apply_update s
         {| SingleAgent.u_messages := Some [response] |}).
Proof.
  intros Hmodel Hc. simpl.
  rewrite (step_agent model toolNode s response Hmodel), Hc. reflexivity.
Qed.

Lemma after_steps_tools_agent (k : nat) (s : SingleAgent.State)
    (u : SingleAgent.Update) :
  toolNode s = Returned u ->
  SingleAgent.after_steps (S k) graph "tools" s
  = SingleAgent.after_steps k graph "agent" (SingleAgent.apply_update s u).
Proof.
  intros Htool. simpl. rewrite (step_tools model toolNode s u Htool).
  reflexivity.
Qed.

Lemma run_from_outcomes (limit : nat) :
  forall (n : string) (s : SingleAgent.State) (taken : nat),
    n = "agent" \/ n = "tools" ->
    (exists s' : SingleAgent.State,
        SingleAgent.run_from limit graph n s taken = SingleAgent.Finished s')
    \/ (exists s' : SingleAgent.State,
          SingleAgent.run_from limit graph n s taken
          = SingleAgent.StepLimitExceeded s' (taken + limit))
    \/ (exists (e : Exn) (k : nat) (s1 : SingleAgent.State),
          k < limit
          /\ SingleAgent.run_from limit graph n s taken
             = SingleAgent.StepFailed e
          /\ ((SingleAgent.after_steps k graph n s = Returned ("agent", s1)
               /\ model (SingleAgent.messages s1) = Threw e)
              \/ (SingleAgent.after_steps k graph n s = Returned ("tools", s1)
                  /\ toolNode s1 = Threw e))).
Proof.
  induction limit as [| limit IH]; intros n s taken Hn.
  - right. left. exists s. simpl.
    rewrite (loop_not_end n Hn), Nat.add_0_r. reflexivity.
  - cbn [SingleAgent.run_from]. rewrite (loop_not_end n Hn).
    destruct Hn as [-> | ->].
    + destruct (model (SingleAgent.messages s)) as [r | e] eqn:Hmodel.
      * rewrite (step_agent model toolNode s r Hmodel).
        destruct (Nat.eqb (tool_call_count r) 0) eqn:Hc.
        -- left. eexists. apply run_from_end.
        -- destruct (IH "tools"
                       (SingleAgent.apply_update s
                          {| SingleAgent.u_messages := Some [r] |})
                       (S taken))
             as [Hfin | [[s' Hlim] | (e & k & s1 & Hk & Hfail & Hat)]];
             [right; reflexivity | | |].
           ++ left. exact Hfin.
           ++ right. left. exists s'. rewrite Hlim. f_equal. lia.
           ++ right. right. exists e, (S k), s1.
              split; [lia |]. split; [exact Hfail |].
              rewrite (after_steps_agent_tools k s r Hmodel Hc). exact Hat.
      * rewrite (step_agent_threw s e Hmodel).
        right. right. exists e, 0, s.
        split; [lia |]. split; [reflexivity |].
        left. split; [reflexivity | exact Hmodel].
    + destruct (toolNode s) as [u | e] eqn:Htool.
      * rewrite (step_tools model toolNode s u Htool).
        destruct (IH "agent" (SingleAgent.apply_update s u) (S taken))
          as [Hfin | [[s' Hlim] | (e & k & s1 & Hk & Hfail & Hat)]];
          [left; reflexivity | | |].
        -- left. exact Hfin.
        -- right. left. exists s'. rewrite Hlim. f_equal. lia.
        -- right. right. exists e, (S k), s1.
           split; [lia |]. split; [exact Hfail |].
           rewrite (after_steps_tools_agent k s u Htool). exact Hat.
      * rewrite (step_tools_threw s e Htool).
        right. right. exists e, 0, s.
        split; [lia |]. split; [reflexivity |].
        right. split; [reflexivity | exact Htool].
Qed.

(** X9. A run of the script's graph under a step limit ends in one of
    three ways: it finishes; or it stops with [StepLimitExceeded] after
    exactly [limit] steps; or it fails with the error [e] that a
    collaborator threw on a state of the run, reached in fewer than
    [limit] steps: the model, when the run was at ["agent"], or the tool
    node, when it was at ["tools"]. No run ends with an error of the
    routing function or of the executor. *)
Theorem run_outcomes (limit : nat) (input : SingleAgent.Update) :
  (exists s : SingleAgent.State,
      SingleAgent.run limit graph input = SingleAgent.Finished s)
  \/ (exists s : SingleAgent.State,
        SingleAgent.run limit graph input
        = SingleAgent.StepLimitExceeded s limit)
  \/ (exists (e : Exn) (k : nat) (s1 : SingleAgent.State),
        k < limit
        /\ SingleAgent.run limit graph input = SingleAgent.StepFailed e
        /\ ((SingleAgent.after_steps k graph "agent"
               (SingleAgent.initial_state input)
             = Returned ("agent", s1)
             /\ model (SingleAgent.messages s1) = Threw e)
            \/ (SingleAgent.after_steps k graph "agent"
                  (SingleAgent.initial_state input)
                = Returned ("tools", s1)
                /\ toolNode s1 = Threw e))).
Proof.
  unfold SingleAgent.run. rewrite next_node_start.
  exact (run_from_outcomes limit "agent" (SingleAgent.initial_state input) 0
           (or_introl eq_refl)).
Qed.

Lemma after_steps_end (k : nat) (s : SingleAgent.State) :
  SingleAgent.after_steps k graph "__end__" s = Returned ("__end__", s).
Proof. destruct k; reflexivity. Qed.

Lemma after_steps_alternate (k : nat) :
  forall (s : SingleAgent.State) (n : string) (s' : SingleAgent.State),
    (SingleAgent.after_steps k graph "agent" s = Returned (n, s') ->
     n = "__end__" \/ n = (if Nat.even k then "agent" else "tools"))
    /\ (SingleAgent.after_steps k graph "tools" s = Returned (n, s') ->
        n = "__end__" \/ n = (if Nat.even k then "tools" else "agent")).
Proof.
  induction k as [| k IH]; intros s n s'.
  - split; intros H; injection H as <- _; right; reflexivity.
  - rewrite Nat.even_succ, <- Nat.negb_even.
    split; intros H; simpl in H.
    + apply obind_returned in H as ([s1 n1] & Hstep & H). simpl in H.
      destruct (model (SingleAgent.messages s)) as [r | e] eqn:Hmodel.
      * rewrite (step_agent model toolNode s r Hmodel) in Hstep.
        injection Hstep as <- <-.
        destruct (Nat.eqb (tool_call_count r) 0).
        -- rewrite after_steps_end in H. injection H as <- _.
           left. reflexivity.
        -- apply (proj2 (IH _ n s')) in H.
           destruct (Nat.even k); exact H.
      * rewrite (step_agent_threw s e Hmodel) in Hstep. discriminate Hstep.
    + apply obind_returned in H as ([s1 n1] & Hstep & H). simpl in H.
      destruct (toolNode s) as [u | e] eqn:Htool.
      * rewrite (step_tools model toolNode s u Htool) in Hstep.
        injection Hstep as <- <-.
        apply (proj1 (IH _ n s')) in H.
        destruct (Nat.even k); exact H.
      * rewrite (step_tools_threw s e Htool) in Hstep. discriminate Hstep.
Qed.

(** X10. Model calls and tool steps alternate: in a run of the script's
    graph that has not ended, the node due after an even number of steps
    is ["agent"] and the node due after an odd number is ["tools"]. *)
Theorem run_alternates (k : nat) (input : SingleAgent.Update) (n : string)
    (s : SingleAgent.State)
    (Hsteps : SingleAgent.after_steps k graph "agent"
                (SingleAgent.initial_state input)
              = Returned (n, s)) :
  n = "__end__" \/ n = (if Nat.even k then "agent" else "tools").
Proof.
  exact (proj1 (after_steps_alternate k _ n s) Hsteps).
Qed.

End GraphRunFacts.

Lemma run_keeps_history_witness :
  default [] (SingleAgent.u_messages SingleAgent.getFinalState_input)
  `prefix_of`
  SingleAgent.messages
    {| SingleAgent.messages :=
         [HumanMessage_of_text "What is LangGraph??"; Stubs.tool_request;
          Stubs.tool_result] |}.
Proof.
  apply (run_keeps_history
           (SingleAgent.graph Stubs.looping_model Stubs.result_toolNode) 2
           SingleAgent.getFinalState_input).
  right. exists 2. reflexivity.
Defined.

Lemma callModel_then_route_witness :
  exists response : BaseMessage,
    Stubs.looping_model
      (SingleAgent.messages
         (SingleAgent.initial_state SingleAgent.getFinalState_input))
    = Returned response
    /\ SingleAgent.messages
         (SingleAgent.apply_update
            (SingleAgent.initial_state SingleAgent.getFinalState_input)
            {| SingleAgent.u_messages := Some [Stubs.tool_request] |})
       = SingleAgent.messages
           (SingleAgent.initial_state SingleAgent.getFinalState_input)
         ++ [response]
    /\ SingleAgent.shouldContinue
         (SingleAgent.apply_update
            (SingleAgent.initial_state SingleAgent.getFinalState_input)
            {| SingleAgent.u_messages := Some [Stubs.tool_request] |})
       = Returned (if Nat.eqb (tool_call_count response) 0
                   then "__end__" else "tools").
Proof.
  exact (callModel_then_route Stubs.looping_model
           (SingleAgent.initial_state SingleAgent.getFinalState_input)
           _ eq_refl).
Defined.

Lemma finished_run_ends_with_answer_witness :
  exists (before : list BaseMessage) (response : BaseMessage),
    default [] (SingleAgent.u_messages SingleAgent.getFinalState_input)
    `prefix_of` before
    /\ Stubs.echo_model before = Returned response
    /\ tool_call_count response = 0
    /\ SingleAgent.messages
         {| SingleAgent.messages :=
              [HumanMessage_of_text "What is LangGraph??"; Stubs.echo_response] |}
       = before ++ [response]
    /\ last
         (SingleAgent.messages
            {| SingleAgent.messages :=
                 [HumanMessage_of_text "What is LangGraph??";
                  Stubs.echo_response] |})
       = Some response.
Proof.
  exact (finished_run_ends_with_answer Stubs.echo_model Stubs.result_toolNode 3
           SingleAgent.getFinalState_input _ eq_refl).
Defined.

(** A model that fails on its second call: the run fails with that
    error at its third step, on the state reached after two steps. *)
Example run_fails_at_second_model_call :
  SingleAgent.run 5
    (SingleAgent.graph
       (fun msgs => if Nat.eqb (length msgs) 1 then Returned Stubs.tool_request
                    else Threw (CollaboratorError "rate limit"))
       Stubs.result_toolNode)
    SingleAgent.getFinalState_input
  = SingleAgent.StepFailed (CollaboratorError "rate limit")
  /\ SingleAgent.after_steps 2
       (SingleAgent.graph
          (fun msgs => if Nat.eqb (length msgs) 1 then Returned Stubs.tool_request
                       else Threw (CollaboratorError "rate limit"))
          Stubs.result_toolNode)
       "agent" (SingleAgent.initial_state SingleAgent.getFinalState_input)
     = Returned
         ("agent",
          {| SingleAgent.messages :=
               [HumanMessage_of_text "What is LangGraph??"; Stubs.tool_request;
                Stubs.tool_result] |}).
Proof. split; reflexivity. Qed.

Lemma run_alternates_witness :
  "tools" = "__end__" \/ "tools" = (if Nat.even 3 then "agent" else "tools").
Proof.
  exact (run_alternates Stubs.looping_model Stubs.result_toolNode 3
           SingleAgent.getFinalState_input "tools"
           {| SingleAgent.messages :=
                [HumanMessage_of_text "What is LangGraph??"; Stubs.tool_request;
                 Stubs.tool_result; Stubs.tool_request] |}
           eq_refl).
Defined.

(** ** The report *)

Lemma log_messages_flat (messages : list BaseMessage) :
  forall console : list string,
    Report.log_messages messages console
    = console
      ++ concat ((fun m => [content m; Report.separator]) <$> messages).
Proof.
  unfold Report.log_messages.
  induction messages as [| m messages IH]; intros console; simpl.
  - symmetry. apply app_nil_r.
  - rewrite IH, <- !app_assoc. reflexivity.
Qed.

Lemma report_lines_lookup (messages : list BaseMessage) :
  forall (i : nat) (m : BaseMessage),
    messages !! i = Some m ->
    concat ((fun m => [content m; Report.separator]) <$> messages) !! (2 * i)
    = Some (content m)
    /\ concat ((fun m => [content m; Report.separator]) <$> messages)
       !! (2 * i + 1)
       = Some Report.separator.
Proof.
  induction messages as [| a messages IH]; intros i m Hi; [discriminate Hi |].
  destruct i as [| i].
  - injection Hi as ->. split; reflexivity.
  - replace (2 * S i) with (S (S (2 * i))) by lia.
    exact (IH i m Hi).
Qed.

(** X11. The report writes two lines per message after what the console
    already holds, in the order of the log: the content of message [i]
    is line [2 * i] of the new lines and the separator is line
    [2 * i + 1]; an empty log writes nothing. *)
Theorem log_messages_lines (messages : list BaseMessage)
    (console : list string) :
  console `prefix_of` Report.log_messages messages console
  /\ length (Report.log_messages messages console)
     = length console + 2 * length messages
  /\ forall (i : nat) (m : BaseMessage),
       messages !! i = Some m ->
       Report.log_messages messages console !! (length console + 2 * i)
       = Some (content m)
       /\ Report.log_messages messages console !! (length console + 2 * i + 1)
          = Some Report.separator.
Proof.
  rewrite log_messages_flat. split; [apply prefix_app_r; reflexivity |]. split.
  - rewrite length_app. f_equal.
    induction messages as [| m messages IH]; [reflexivity |].
    rewrite fmap_cons. simpl. rewrite IH. lia.
  - intros i m Hi. destruct (report_lines_lookup messages i m Hi) as [H0 H1].
    rewrite <- Nat.add_assoc, !lookup_app_r by lia.
    replace (length console + 2 * i - length console) with (2 * i) by lia.
    replace (length console + (2 * i + 1) - length console) with (2 * i + 1)
      by lia.
    split; assumption.
Qed.
